(** * Scala source dependency analysis: data model, candidate resolver,
      (de)serialisation and the two engine rules around the parser process.

    Shallow embedding of
    [src/python/pants/backend/scala/dependency_inference/scala_parser.py].

    Conventions of the embedding:
    - a Python [str] is a [string] (its UTF-8 bytes; byte-wise lexicographic
      order coincides with Python's code-point order);
    - a [dict] / [FrozenDict] is an association list in insertion order; the
      keys of a well-formed dict are pairwise distinct ([dict_wf]);
    - a [FrozenOrderedSet] and a [tuple] are lists in iteration order;
    - a generator is the list of values it yields, and also (for the claims on
      restartability and totality) an explicit machine over its frame;
    - an [async] rule is a tree whose nodes are the [Get] requests it awaits. *)

From Stdlib Require Import List String Ascii Bool Arith ZArith Lia.
From Stdlib Require Import Permutation Sorted DecimalString.
Import ListNotations.

Set Implicit Arguments.
Local Open Scope string_scope.
Local Open Scope list_scope.

(* ================================================================== *)
(** * Python primitives used by the module *)
(* ================================================================== *)

Module Py.

(** [s.startswith(p)] *)
Definition startswith (s p : string) : bool := String.prefix p s.

(** [s.endswith(p)] *)
Fixpoint endswith (s p : string) : bool :=
  String.eqb s p
  || match s with
     | EmptyString => false
     | String _ s' => endswith s' p
     end.

(** [sub in s] on strings: [sub] occurs at some offset of [s]. *)
Fixpoint str_in (sub s : string) : bool :=
  String.prefix sub s
  || match s with
     | EmptyString => false
     | String _ s' => str_in sub s'
     end.

(** [f"{q}.{s}"] *)
Definition dotted (q s : string) : string := (q ++ "." ++ s)%string.

(** [str(n)] / [f"{n}"] for a non-negative [int]. *)
Definition str_of_nat (n : nat) : string :=
  NilEmpty.string_of_uint (Nat.to_uint n).

(** [bool(xs)] for a sized container. *)
Definition truthy {A} (xs : list A) : bool :=
  match xs with [] => false | _ :: _ => true end.

(** ** dict *)

Definition dict (V : Type) : Type := list (string * V).

Definition items {V} (d : dict V) : list (string * V) := d.
Definition keys {V} (d : dict V) : list string := map fst d.
Definition values {V} (d : dict V) : list V := map snd d.

(** [d[k]] read; [None] stands for [KeyError(k)]. *)
Fixpoint getitem {V} (d : dict V) (k : string) : option V :=
  match d with
  | [] => None
  | (k', v) :: r => if String.eqb k' k then Some v else getitem r k
  end.

(** [d[k] = v]: an existing key keeps its position, a new one is appended. *)
Fixpoint setitem {V} (d : dict V) (k : string) (v : V) : dict V :=
  match d with
  | [] => [(k, v)]
  | (k', v') :: r =>
      if String.eqb k' k then (k', v) :: r else (k', v') :: setitem r k v
  end.

(** [{k: f(v) for k, v in its}] *)
Definition dict_comp {V W} (f : V -> W) (its : list (string * V)) : dict W :=
  fold_left (fun acc kv => setitem acc (fst kv) (f (snd kv))) its [].

(** The representation invariant of a dict: no key occurs twice. *)
Definition dict_wf {V} (d : dict V) : Prop := NoDup (keys d).

(** ** sorted *)

Fixpoint insert_sorted (x : string) (l : list string) : list string :=
  match l with
  | [] => [x]
  | y :: r => if String.leb x y then x :: l else y :: insert_sorted x r
  end.

(** [sorted(l)] on strings: the ascending rearrangement of [l].  Strings that
    compare equal are identical, so the result does not depend on the
    sorting algorithm (see [sorted_unique]). *)
Definition sorted (l : list string) : list string :=
  fold_right insert_sorted [] l.

(** ** bytes.decode

    [byte_in lo hi c]: the byte [c] lies in [lo..hi]. *)
Definition byte_in (lo hi : N) (c : ascii) : bool :=
  ((lo <=? N_of_ascii c) && (N_of_ascii c <=? hi))%N.

Definition continuation_byte (c : ascii) : bool := byte_in 128 191 c.

(** [b.decode()] succeeds: the bytes [b] are well-formed UTF-8 (no stray or
    missing continuation byte, no overlong form, no surrogate, nothing above
    U+10FFFF).  Otherwise [decode] raises [UnicodeDecodeError]. *)
Fixpoint utf8_valid (b : string) : bool :=
  match b with
  | EmptyString => true
  | String b0 r0 =>
      if byte_in 0 127 b0 then utf8_valid r0
      else
        match r0 with
        | EmptyString => false
        | String b1 r1 =>
            if byte_in 194 223 b0 then continuation_byte b1 && utf8_valid r1
            else
              match r1 with
              | EmptyString => false
              | String b2 r2 =>
                  if byte_in 224 239 b0 then
                    (if byte_in 224 224 b0 then byte_in 160 191 b1
                     else if byte_in 237 237 b0 then byte_in 128 159 b1
                     else continuation_byte b1)
                    && continuation_byte b2 && utf8_valid r2
                  else
                    match r2 with
                    | EmptyString => false
                    | String b3 r3 =>
                        byte_in 240 244 b0
                        && (if byte_in 240 240 b0 then byte_in 144 191 b1
                            else if byte_in 244 244 b0 then byte_in 128 143 b1
                            else continuation_byte b1)
                        && continuation_byte b2 && continuation_byte b3
                        && utf8_valid r3
                    end
              end
        end
  end.

(** [os.path.join(a, b)] of [posixpath], two arguments. *)
Definition os_path_join (a b : string) : string :=
  if startswith b "/" then b
  else if String.eqb a EmptyString || endswith a "/"
       then (a ++ b)%string
       else (a ++ "/" ++ b)%string.

End Py.

(* ================================================================== *)
(** * Data model *)
(* ================================================================== *)

(** [@dataclass(frozen=True) class ScalaImport] *)
Record ScalaImport : Type := mkScalaImport {
  name : string;
  is_wildcard : bool
}.

Definition ScalaImport_eq_dec (x y : ScalaImport) : {x = y} + {x <> y}.
Proof. decide equality; [apply bool_dec | apply string_dec]. Defined.

(** Modelled from the spec: [pants.util.ordered_set.FrozenOrderedSet] is not
    among the sources.  Section 3 of the specification describes such a set
    as holding no duplicates, in insertion order, the insertion order being
    the order of first appearance.  [FrozenOrderedSet l] is the iteration
    order of the set built from the iterable [l]. *)
Fixpoint FrozenOrderedSet (l : list string) : list string :=
  match l with
  | [] => []
  | x :: r => x :: filter (fun y => negb (String.eqb y x)) (FrozenOrderedSet r)
  end.

(** The iteration order of a built-in [set] of imports depends on hashes that
    the program does not control.  It is kept abstract: [set_iter l] is the
    order in which the set built by adding the elements of [l] one after the
    other is iterated; it enumerates the distinct elements of [l]. *)
Class SetIteration : Type := {
  set_iter : list ScalaImport -> list ScalaImport;
  set_iter_NoDup : forall l, NoDup (set_iter l);
  set_iter_In : forall l x, In x (set_iter l) <-> In x l
}.

(** [@dataclass(frozen=True) class ScalaSourceDependencyAnalysis] *)
Record ScalaSourceDependencyAnalysis : Type := mkAnalysis {
  provided_symbols : list string;
  provided_symbols_encoded : list string;
  imports_by_scope : Py.dict (list ScalaImport);
  consumed_symbols_by_scope : Py.dict (list string);
  scopes : list string
}.

(** What the field types guarantee: dict keys are distinct, sets have no
    repeated member. *)
Record wf_analysis (a : ScalaSourceDependencyAnalysis) : Prop := {
  wf_provided : NoDup (provided_symbols a);
  wf_provided_encoded : NoDup (provided_symbols_encoded a);
  wf_imports : Py.dict_wf (imports_by_scope a);
  wf_consumed : Py.dict_wf (consumed_symbols_by_scope a);
  wf_consumed_sets :
    forall s syms, In (s, syms) (consumed_symbols_by_scope a) -> NoDup syms;
  wf_scopes : NoDup (scopes a)
}.

(** [all_imports] *)
Definition all_imports (a : ScalaSourceDependencyAnalysis) : list string :=
  flat_map (fun imports => map name imports) (Py.values (imports_by_scope a)).

(* ================================================================== *)
(** * The candidate resolver *)
(* ================================================================== *)

(** First loop of [fully_qualified_consumed_symbols]: the wildcard imports of
    every scope that has some. *)
Definition wildcard_step
    (acc : Py.dict (list ScalaImport)) (kv : string * list ScalaImport)
    : Py.dict (list ScalaImport) :=
  let wildcard_imports := filter is_wildcard (snd kv) in
  if Py.truthy wildcard_imports
  then Py.setitem acc (fst kv) wildcard_imports
  else acc.

Definition wildcard_imports_by_scope (a : ScalaSourceDependencyAnalysis)
    : Py.dict (list ScalaImport) :=
  fold_left wildcard_step (Py.items (imports_by_scope a)) [].

(** The elements added, in order, to the set comprehension
    [{wi for s, wildcard_imports in ... for wi in wildcard_imports
         if scope.startswith(s)}]. *)
Definition parent_scope_wildcards_added
    (wibs : Py.dict (list ScalaImport)) (scope : string) : list ScalaImport :=
  flat_map
    (fun kv => filter (fun _ => Py.startswith scope (fst kv)) (snd kv))
    (Py.items wibs).

Definition parent_scope_wildcards `{SetIteration}
    (wibs : Py.dict (list ScalaImport)) (scope : string) : list ScalaImport :=
  set_iter (parent_scope_wildcards_added wibs scope).

(** Body of [for symbol in consumed_symbols]. *)
Definition symbol_candidates
    (a : ScalaSourceDependencyAnalysis) (psw : list ScalaImport)
    (symbol : string) : list string :=
  map (fun scope => Py.dotted scope symbol) (scopes a)
  ++ (if negb (Py.truthy (scopes a)) || Py.str_in "." symbol
      then [symbol] else [])
  ++ map (fun wildcard_scope => Py.dotted (name wildcard_scope) symbol) psw.

(** Body of [for scope, consumed_symbols in ...items()]. *)
Definition scope_candidates `{SetIteration}
    (a : ScalaSourceDependencyAnalysis) (wibs : Py.dict (list ScalaImport))
    (kv : string * list string) : list string :=
  let psw := parent_scope_wildcards wibs (fst kv) in
  flat_map (symbol_candidates a psw) (snd kv).

(** [fully_qualified_consumed_symbols]: the values yielded, in order. *)
Definition fully_qualified_consumed_symbols `{SetIteration}
    (a : ScalaSourceDependencyAnalysis) : list string :=
  let wibs := wildcard_imports_by_scope a in
  flat_map (scope_candidates a wibs) (Py.items (consumed_symbols_by_scope a)).

(* ------------------------------------------------------------------ *)
(** ** The generator as a machine

    A call of [fully_qualified_consumed_symbols] makes a generator object with
    a frame of its own.  [Gen] is that frame: the local variables and the
    position in the body.  The analysis is only read.  A local that is not
    bound yet holds a placeholder (the empty string or the empty list); no step reads it before it
    is assigned. *)

Record Locals : Type := mkLocals {
  l_wibs : Py.dict (list ScalaImport);       (* wildcard_imports_by_scope *)
  l_outer : list (string * list string);     (* rest of the outer items() *)
  l_scope : string;                          (* scope *)
  l_psw : list ScalaImport;                  (* parent_scope_wildcards *)
  l_syms : list string;                      (* rest of consumed_symbols *)
  l_symbol : string                          (* symbol *)
}.

Inductive Position : Type :=
| AtOuter                                    (* head of [for scope, consumed_symbols] *)
| AtSymbol                                   (* head of [for symbol] *)
| AtScopes (rest : list string)              (* head of [for scope in self.scopes] *)
| AtBare                                     (* the [if not self.scopes or ...] *)
| AtWild (rest : list ScalaImport).          (* head of [for wildcard_scope] *)

Inductive Gen : Type :=
| Created
| Running (pc : Position) (l : Locals)
| Finished.

(** One move of the generator: the next state and the value yielded, if the
    move is a [yield]. *)
Definition gen_step `{SetIteration}
    (a : ScalaSourceDependencyAnalysis) (g : Gen) : Gen * option string :=
  match g with
  | Created =>
      (Running AtOuter
         (mkLocals (wildcard_imports_by_scope a)
                   (Py.items (consumed_symbols_by_scope a)) EmptyString [] [] EmptyString),
       None)
  | Running AtOuter l =>
      match l_outer l with
      | [] => (Finished, None)
      | (scope, consumed_symbols) :: outer =>
          (Running AtSymbol
             (mkLocals (l_wibs l) outer scope
                       (parent_scope_wildcards (l_wibs l) scope)
                       consumed_symbols (l_symbol l)),
           None)
      end
  | Running AtSymbol l =>
      match l_syms l with
      | [] => (Running AtOuter l, None)
      | symbol :: syms =>
          (Running (AtScopes (scopes a))
             (mkLocals (l_wibs l) (l_outer l) (l_scope l) (l_psw l) syms symbol),
           None)
      end
  | Running (AtScopes rest) l =>
      match rest with
      | [] => (Running AtBare l, None)
      | scope :: rest' =>
          (Running (AtScopes rest')
             (mkLocals (l_wibs l) (l_outer l) scope (l_psw l) (l_syms l)
                       (l_symbol l)),
           Some (Py.dotted scope (l_symbol l)))
      end
  | Running AtBare l =>
      (Running (AtWild (l_psw l)) l,
       if negb (Py.truthy (scopes a)) || Py.str_in "." (l_symbol l)
       then Some (l_symbol l) else None)
  | Running (AtWild rest) l =>
      match rest with
      | [] => (Running AtSymbol l, None)
      | wildcard_scope :: rest' =>
          (Running (AtWild rest') l,
           Some (Py.dotted (name wildcard_scope) (l_symbol l)))
      end
  | Finished => (Finished, None)
  end.

Definition emitted (o : option string) : list string :=
  match o with Some s => [s] | None => [] end.

(** [list(g)]: drive the generator to exhaustion, at most [fuel] moves.
    [None] means the fuel ran out first. *)
Fixpoint gen_list `{SetIteration} (fuel : nat)
    (a : ScalaSourceDependencyAnalysis) (g : Gen) : option (list string) :=
  match g with
  | Finished => Some []
  | _ =>
      match fuel with
      | O => None
      | S fuel' =>
          let (g', o) := gen_step a g in
          option_map (app (emitted o)) (gen_list fuel' a g')
      end
  end.

(** Moves needed to exhaust a fresh generator. *)
Definition symbol_moves
    (a : ScalaSourceDependencyAnalysis) (psw : list ScalaImport) : nat :=
  1 + (List.length (scopes a) + 1) + 1 + (List.length psw + 1).

Definition scope_moves `{SetIteration}
    (a : ScalaSourceDependencyAnalysis) (wibs : Py.dict (list ScalaImport))
    (kv : string * list string) : nat :=
  1 + List.length (snd kv)
      * symbol_moves a (parent_scope_wildcards wibs (fst kv)) + 1.

Definition gen_moves `{SetIteration}
    (a : ScalaSourceDependencyAnalysis) : nat :=
  1 + list_sum (map (scope_moves a (wildcard_imports_by_scope a))
                    (Py.items (consumed_symbols_by_scope a))) + 1.

(* ================================================================== *)
(** * Exceptions and JSON values *)
(* ================================================================== *)

(** The exceptions the module can raise.  [ProcessExecutionFailure] carries
    the arguments its constructor is called with; [UnicodeDecodeError] is what
    that constructor raises instead (see [new_ProcessExecutionFailure]).
    [IllShaped] is not a Python
    exception: it marks a value whose shape departs from the declared one (a
    transport record is a JSON object of lists and objects of strings and
    booleans); what the source does on such a value is outside this model and
    no statement below speaks of it. *)
Inductive Exn : Type :=
| KeyError (key : string)
| ValueError (msg : string)
| IndexError
| JSONDecodeError
| ProcessExecutionFailure
    (exit_code : Z) (stdout stderr : string)
    (process_description : string) (local_cleanup : bool)
| IllShaped
| UnicodeDecodeError.

(** The expression [ProcessExecutionFailure(exit_code, stdout, stderr,
    process_description, local_cleanup=...)].  The class is declared in
    [pants.engine.process], outside these sources.  Its constructor keeps the
    exit code and the two streams as they are and builds the text of the
    error from the description, the exit code and the two streams decoded as
    UTF-8, stdout first: when a stream does not decode, evaluating the
    expression raises [UnicodeDecodeError] and no [ProcessExecutionFailure]
    comes to exist. *)
Definition new_ProcessExecutionFailure
    (exit_code : Z) (stdout stderr : string)
    (process_description : string) (local_cleanup : bool) : Exn :=
  if Py.utf8_valid stdout && Py.utf8_valid stderr
  then ProcessExecutionFailure exit_code stdout stderr process_description
         local_cleanup
  else UnicodeDecodeError.

Inductive result (A : Type) : Type :=
| Ok (a : A)
| Err (e : Exn).
Arguments Ok {A} a.
Arguments Err {A} e.

Definition result_bind {A B} (m : result A) (k : A -> result B) : result B :=
  match m with
  | Ok a => k a
  | Err e => Err e
  end.

Notation "x <- m ;; k" := (result_bind m (fun x => k))
  (at level 61, m at next level, right associativity).

Fixpoint mapM {A B} (f : A -> result B) (l : list A) : result (list B) :=
  match l with
  | [] => Ok []
  | x :: r => y <- f x ;; ys <- mapM f r ;; Ok (y :: ys)
  end.

(** What [json.loads] returns. *)
#[local] Unset Elimination Schemes.
Inductive json : Type :=
| JNull
| JBool (b : bool)
| JNum (n : Z)
| JStr (s : string)
| JArr (l : list json)
| JObj (m : list (string * json)).
#[local] Set Elimination Schemes.

Definition as_str (j : json) : result string :=
  match j with JStr s => Ok s | _ => Err IllShaped end.

Definition as_bool (j : json) : result bool :=
  match j with JBool b => Ok b | _ => Err IllShaped end.

Definition as_list (j : json) : result (list json) :=
  match j with JArr l => Ok l | _ => Err IllShaped end.

Definition as_dict (j : json) : result (Py.dict json) :=
  match j with JObj m => Ok m | _ => Err IllShaped end.

Definition as_str_list (j : json) : result (list string) :=
  l <- as_list j ;; mapM as_str l.

(** [d[key]], raising [KeyError(key)]. *)
Definition subscript {V} (d : Py.dict V) (key : string) : result V :=
  match Py.getitem d key with
  | Some v => Ok v
  | None => Err (KeyError key)
  end.

(** [{key: f(values) for key, values in its}] when [f] may raise: the items
    are visited in order and the first exception leaves the comprehension. *)
Fixpoint dict_compM {V W} (f : V -> result W) (its : list (string * V))
    (acc : Py.dict W) : result (Py.dict W) :=
  match its with
  | [] => Ok acc
  | kv :: r => w <- f (snd kv) ;; dict_compM f r (Py.setitem acc (fst kv) w)
  end.

(* ================================================================== *)
(** * Serialisation *)
(* ================================================================== *)

(** [ScalaImport.from_json_dict].  The source stores whatever it finds under
    the two keys; the tests [as_str] and [as_bool] are the model's, which
    keeps a string and a boolean in a [ScalaImport] (see [IllShaped]). *)
Definition ScalaImport_from_json_dict (data : json) : result ScalaImport :=
  d <- as_dict data ;;
  n <- subscript d "name" ;;
  n <- as_str n ;;
  w <- subscript d "isWildcard" ;;
  w <- as_bool w ;;
  Ok (mkScalaImport n w).

(** [ScalaImport.to_debug_json_dict] *)
Definition ScalaImport_to_debug_json_dict (i : ScalaImport) : json :=
  JObj [("name", JStr (name i)); ("is_wildcard", JBool (is_wildcard i))].

(** [ScalaSourceDependencyAnalysis.from_json_dict].  [FrozenDict] wraps the
    dict it is given and keeps its order. *)
Definition from_json_dict (d : Py.dict json)
    : result ScalaSourceDependencyAnalysis :=
  ps <- subscript d "providedSymbols" ;;
  ps <- as_str_list ps ;;
  pse <- subscript d "providedSymbolsEncoded" ;;
  pse <- as_str_list pse ;;
  ibs <- subscript d "importsByScope" ;;
  ibs <- as_dict ibs ;;
  ibs <- dict_compM
           (fun values => vs <- as_list values ;;
                          mapM ScalaImport_from_json_dict vs)
           (Py.items ibs) [] ;;
  csbs <- subscript d "consumedSymbolsByScope" ;;
  csbs <- as_dict csbs ;;
  csbs <- dict_compM
            (fun values => vs <- as_str_list values ;;
                           Ok (FrozenOrderedSet vs))
            (Py.items csbs) [] ;;
  sc <- subscript d "scopes" ;;
  sc <- as_str_list sc ;;
  Ok (mkAnalysis (FrozenOrderedSet ps) (FrozenOrderedSet pse) ibs csbs
                 (FrozenOrderedSet sc)).

(** [ScalaSourceDependencyAnalysis.to_debug_json_dict] *)
Definition to_debug_json_dict (a : ScalaSourceDependencyAnalysis) : json :=
  JObj
    [ ("provided_symbols", JArr (map JStr (provided_symbols a)));
      ("provided_symbols_encoded",
        JArr (map JStr (provided_symbols_encoded a)));
      ("imports_by_scope",
        JObj (Py.dict_comp
                (fun values => JArr (map ScalaImport_to_debug_json_dict values))
                (Py.items (imports_by_scope a))));
      ("consumed_symbols_by_scope",
        JObj (Py.dict_comp
                (fun v => JArr (map JStr (Py.sorted v)))
                (Py.items (consumed_symbols_by_scope a))));
      ("scopes", JArr (map JStr (scopes a))) ].

(* ================================================================== *)
(** * The engine rules *)
(* ================================================================== *)

Inductive LogLevel : Type := TRACE | DEBUG | INFO | WARN | ERROR.

(** [PARSER_SCALA_VERSION] and the coordinates of the parser's dependencies,
    as the strings handed to [Coordinate.from_coord_str]. *)
Definition PARSER_SCALA_VERSION : string := "2.13.7".
Definition SCALAMETA_VERSION : string := "4.4.30".
Definition CIRCE_VERSION : string := "0.14.1".

Definition SCALAMETA_DEPENDENCIES : list string :=
  [ "org.scalameta:scalameta_2.13:4.4.30";
    "org.scala-lang:scala-library:2.13.7";
    "com.thesamet.scalapb:scalapb-runtime_2.13:0.11.4";
    "org.scalameta:parsers_2.13:4.4.30";
    "org.scala-lang:scala-compiler:2.13.7";
    "net.java.dev.jna:jna:5.8.0";
    "org.scalameta:trees_2.13:4.4.30";
    "org.scalameta:common_2.13:4.4.30";
    "com.lihaoyi:sourcecode_2.13:0.2.7";
    "org.jline:jline:3.20.0";
    "org.scalameta:fastparse-v2_2.13:2.3.1";
    "org.scala-lang.modules:scala-collection-compat_2.13:2.4.4";
    "org.scala-lang:scalap:2.13.7";
    "org.scala-lang:scala-reflect:2.13.7";
    "com.google.protobuf:protobuf-java:3.15.8";
    "com.thesamet.scalapb:lenses_2.13:0.11.4";
    "com.lihaoyi:geny_2.13:0.6.5" ].

Definition CIRCE_DEPENDENCIES : list string :=
  [ "io.circe:circe-generic_2.13:0.14.1";
    "org.typelevel:simulacrum-scalafix-annotations_2.13:0.5.4";
    "org.typelevel:cats-core_2.13:2.6.1";
    "org.scala-lang:scala-library:2.13.6";
    "io.circe:circe-numbers_2.13:0.14.1";
    "com.chuusai:shapeless_2.13:2.3.7";
    "io.circe:circe-core_2.13:0.14.1";
    "org.typelevel:cats-kernel_2.13:2.6.1" ].

Section Rules.

(** Types and functions of the engine that the module only passes around. *)
Variable Digest : Type.
Variable Env : Type.
Variable Caches : Type.
Variable Coordinate : Type.
Variable from_coord_str : string -> Coordinate.
(** [json.loads]; [None] stands for [JSONDecodeError]. *)
Variable json_loads : string -> option json.

Definition SCALA_PARSER_ARTIFACT_REQUIREMENTS : list Coordinate :=
  map from_coord_str SCALAMETA_DEPENDENCIES
  ++ map from_coord_str CIRCE_DEPENDENCIES.

Record BashBinary : Type := { bash_path : string }.

Record JdkSetup : Type := {
  jdk_digest : Digest;
  jdk_env : Env;
  jdk_append_only_caches : Caches;
  jdk_args : BashBinary -> list string -> list string
}.

(** [class ScalaParserCompiledClassfiles(ClasspathEntry)] *)
Record ScalaParserCompiledClassfiles : Type := { classfiles_digest : Digest }.

Record Snapshot : Type := {
  snapshot_digest : Digest;
  snapshot_files : list string
}.

Record SourceFiles : Type := {
  snapshot : Snapshot;
  files : list string
}.

Record MaterializedClasspathRequest : Type := {
  mcr_prefix : string;
  mcr_artifact_requirements : list (list Coordinate)
}.

Record MaterializedClasspath : Type := {
  mc_digest : Digest;
  classpath_entries : list string
}.

Record Process : Type := {
  argv : list string;
  input_digest : Digest;
  output_files : list string;
  use_nailgun : Digest;
  append_only_caches : Caches;
  env : Env;
  description : string;
  level : LogLevel
}.

Record FallibleProcessResult : Type := {
  stdout : string;
  stderr : string;
  exit_code : Z;
  output_digest : Digest
}.

Record FileContent : Type := {
  fc_path : string;
  content : string
}.

Record GlobalOptions : Type := { process_execution_local_cleanup : bool }.

(** [@dataclass(frozen=True) class FallibleScalaSourceDependencyAnalysisResult] *)
Record FallibleScalaSourceDependencyAnalysisResult : Type := {
  process_result : FallibleProcessResult
}.

(** What a rule of this module can [await]. *)
Inductive Request : Type :=
| GetMaterializedClasspath (r : MaterializedClasspathRequest)
| GetAddPrefix (d : Digest) (prefix : string)
| GetMergeDigests (ds : list Digest)
| GetFallibleProcessResult (p : Process)
| GetDigestContents (d : Digest).

Definition Response (r : Request) : Type :=
  match r with
  | GetMaterializedClasspath _ => MaterializedClasspath
  | GetAddPrefix _ _ => Digest
  | GetMergeDigests _ => Digest
  | GetFallibleProcessResult _ => FallibleProcessResult
  | GetDigestContents _ => list FileContent
  end.

(** A rule body: it returns, raises, or awaits a request and goes on with
    the answer. *)
Inductive Rule (A : Type) : Type :=
| Ret (a : A)
| Raise (e : Exn)
| Get (r : Request) (k : Response r -> Rule A).
Arguments Ret {A} a.
Arguments Raise {A} e.
Arguments Get {A} r k.

Fixpoint Rule_bind {A B} (m : Rule A) (f : A -> Rule B) : Rule B :=
  match m with
  | Ret a => f a
  | Raise e => Raise e
  | Get r k => Get r (fun x => Rule_bind (k x) f)
  end.

Definition of_result {A} (m : result A) : Rule A :=
  match m with
  | Ok a => Ret a
  | Err e => Raise e
  end.

(** The engine answers a request or fails it. *)
Definition Engine : Type := forall r : Request, Exn + Response r.

(** Run a rule against an engine: its outcome and the requests it made, in
    order. *)
Fixpoint run {A} (engine : Engine) (m : Rule A) : result A * list Request :=
  match m with
  | Ret a => (Ok a, [])
  | Raise e => (Err e, [])
  | Get r k =>
      match engine r with
      | inl e => (Err e, [r])
      | inr x => let (o, t) := run engine (k x) in (o, r :: t)
      end
  end.

(** [analyze_scala_source_dependencies].  The three requests of the
    [MultiGet] are independent of each other; they are awaited here in the
    order they are written. *)
Definition analyze_scala_source_dependencies
    (bash : BashBinary) (jdk_setup : JdkSetup)
    (processor_classfiles : ScalaParserCompiledClassfiles)
    (source_files : SourceFiles)
    : Rule FallibleScalaSourceDependencyAnalysisResult :=
  if (1 <? List.length (files source_files))%nat then
    Raise (ValueError
      ("analyze_scala_source_dependencies expects sources with exactly 1 source file, but found "
       ++ Py.str_of_nat (List.length (snapshot_files (snapshot source_files)))
       ++ ".")%string)
  else if (List.length (files source_files) =? 0)%nat then
    Raise (ValueError
      "analyze_scala_source_dependencies expects sources with exactly 1 source file, but found none.")
  else
    let source_prefix := "__source_to_analyze" in
    match files source_files with
    | [] => Raise IndexError
    | file0 :: _ =>
      let source_path := Py.os_path_join source_prefix file0 in
      let processorcp_relpath := "__processorcp" in
      Get (GetMaterializedClasspath
             {| mcr_prefix := "__toolcp";
                mcr_artifact_requirements :=
                  [SCALA_PARSER_ARTIFACT_REQUIREMENTS] |})
        (fun tool_classpath : MaterializedClasspath =>
      Get (GetAddPrefix (classfiles_digest processor_classfiles)
                        processorcp_relpath)
        (fun prefixed_processor_classfiles_digest : Digest =>
      Get (GetAddPrefix (snapshot_digest (snapshot source_files))
                        source_prefix)
        (fun prefixed_source_files_digest : Digest =>
      Get (GetMergeDigests
             [ prefixed_processor_classfiles_digest;
               mc_digest tool_classpath;
               jdk_digest jdk_setup ])
        (fun tool_digest : Digest =>
      Get (GetMergeDigests [tool_digest; prefixed_source_files_digest])
        (fun merged_digest : Digest =>
      let analysis_output_path := "__source_analysis.json" in
      Get (GetFallibleProcessResult
             {| argv :=
                  jdk_args jdk_setup bash
                    (classpath_entries tool_classpath ++ [processorcp_relpath])
                  ++ [ "org.pantsbuild.backend.scala.dependency_inference.ScalaParser";
                       analysis_output_path;
                       source_path ];
                input_digest := merged_digest;
                output_files := [analysis_output_path];
                use_nailgun := tool_digest;
                append_only_caches := jdk_append_only_caches jdk_setup;
                env := jdk_env jdk_setup;
                description := ("Analyzing " ++ file0)%string;
                level := DEBUG |})
        (fun process_result : FallibleProcessResult =>
      Ret {| process_result := process_result |}))))))
    end.

(** [resolve_fallible_result_to_analysis] *)
Definition resolve_fallible_result_to_analysis
    (fallible_result : FallibleScalaSourceDependencyAnalysisResult)
    (global_options : GlobalOptions)
    : Rule ScalaSourceDependencyAnalysis :=
  if (exit_code (process_result fallible_result) =? 0)%Z then
    Get (GetDigestContents (output_digest (process_result fallible_result)))
      (fun analysis_contents : list FileContent =>
         match analysis_contents with
         | [] => Raise IndexError
         | c :: _ =>
             match json_loads (content c) with
             | None => Raise JSONDecodeError
             | Some analysis =>
                 of_result (d <- as_dict analysis ;; from_json_dict d)
             end
         end)
  else
    Raise (new_ProcessExecutionFailure
             (exit_code (process_result fallible_result))
             (stdout (process_result fallible_result))
             (stderr (process_result fallible_result))
             "Scala source dependency analysis failed."
             (process_execution_local_cleanup global_options)).

(** The analysis pipeline: the engine produces the analysis of a file by
    running the first rule and handing its product to the second. *)
Definition analysis_pipeline
    (bash : BashBinary) (jdk_setup : JdkSetup)
    (processor_classfiles : ScalaParserCompiledClassfiles)
    (source_files : SourceFiles) (global_options : GlobalOptions)
    : Rule ScalaSourceDependencyAnalysis :=
  Rule_bind
    (analyze_scala_source_dependencies bash jdk_setup processor_classfiles
                                       source_files)
    (fun fallible_result =>
       resolve_fallible_result_to_analysis fallible_result global_options).

End Rules.

Arguments GetMaterializedClasspath {Digest Env Caches Coordinate} r.
Arguments GetAddPrefix {Digest Env Caches Coordinate} d prefix.
Arguments GetMergeDigests {Digest Env Caches Coordinate} ds.
Arguments GetFallibleProcessResult {Digest Env Caches Coordinate} p.
Arguments GetDigestContents {Digest Env Caches Coordinate} d.
Arguments Ret {Digest Env Caches Coordinate A} a.
Arguments Raise {Digest Env Caches Coordinate A} e.
Arguments of_result {Digest Env Caches Coordinate A} m.
Arguments resolve_fallible_result_to_analysis
  {Digest Env Caches Coordinate} json_loads fallible_result global_options.

(* ================================================================== *)
(** * Reference data used in the statements *)
(* ================================================================== *)

(** A set iteration order that can be computed: first-seen elements, in the
    order [nodup] leaves them. *)
Definition nodup_iteration : SetIteration :=
  {| set_iter := nodup ScalaImport_eq_dec;
     set_iter_NoDup := NoDup_nodup ScalaImport_eq_dec;
     set_iter_In := fun l x => nodup_In ScalaImport_eq_dec l x |}.

(** The analysis of the specification's worked example. *)
Definition example_analysis : ScalaSourceDependencyAnalysis :=
  {| provided_symbols := [];
     provided_symbols_encoded := [];
     imports_by_scope := [("com.foo.Bar", [mkScalaImport "com.baz._" true])];
     consumed_symbols_by_scope := [("com.foo.Bar", ["Qux"])];
     scopes := ["com.foo.Bar"] |}.

(** A wildcard import declared in [com.foo], a symbol consumed in
    [com.foobar]. *)
Definition foobar_analysis : ScalaSourceDependencyAnalysis :=
  {| provided_symbols := [];
     provided_symbols_encoded := [];
     imports_by_scope := [("com.foo", [mkScalaImport "org.lib" true])];
     consumed_symbols_by_scope := [("com.foobar", ["Widget"])];
     scopes := ["com.foobar"] |}.

(** The transport record of [example_analysis], with a repeated scope and a
    repeated consumed symbol. *)
Definition example_transport : Py.dict json :=
  [ ("providedSymbols", JArr [JStr "com.foo.Bar"; JStr "com.foo.Bar"]);
    ("providedSymbolsEncoded", JArr [JStr "com.foo.Bar"]);
    ("importsByScope",
      JObj [("com.foo.Bar",
             JArr [JObj [("name", JStr "com.baz._");
                         ("isWildcard", JBool true)]])]);
    ("consumedSymbolsByScope",
      JObj [("com.foo.Bar", JArr [JStr "Qux"; JStr "Baz"; JStr "Qux"])]);
    ("scopes", JArr [JStr "com.foo.Bar"; JStr "com"; JStr "com.foo.Bar"]) ].

(** Whether the description carried by an execution failure contains the
    path [file]. *)
Definition description_names (e : Exn) (file : string) : bool :=
  match e with
  | ProcessExecutionFailure _ _ _ process_description _ =>
      Py.str_in file process_description
  | _ => false
  end.

(** An engine whose parser process fails with exit code 1; digests,
    environments, caches and coordinates are trivial. *)
Definition failing_engine : Engine unit unit unit unit :=
  fun r =>
    match r return Exn + Response r with
    | GetMaterializedClasspath _ =>
        inr {| mc_digest := tt; classpath_entries := ["__toolcp/scalameta.jar"] |}
    | GetAddPrefix _ _ => inr tt
    | GetMergeDigests _ => inr tt
    | GetFallibleProcessResult _ =>
        inr {| stdout := EmptyString;
               stderr := "error: illegal start of definition";
               exit_code := 1%Z;
               output_digest := tt |}
    | GetDigestContents _ => inr []
    end.

Definition trivial_jdk : JdkSetup unit unit unit :=
  {| jdk_digest := tt;
     jdk_env := tt;
     jdk_append_only_caches := tt;
     jdk_args := fun bash classpath => bash_path bash :: classpath |}.

Definition sources_of (paths : list string) : SourceFiles unit :=
  {| snapshot := {| snapshot_digest := tt; snapshot_files := paths |};
     files := paths |}.

(* ------------------------------------------------------------------ *)
(** ** The content of a transport record

    A transport record is a Python dict; [Transport] is what a record of the
    declared shape says, and [represents d t] relates the two.  The dict may
    hold further keys, and so may the objects of its imports. *)

Record Transport : Type := mkTransport {
  t_providedSymbols : list string;
  t_providedSymbolsEncoded : list string;
  t_importsByScope : Py.dict (list ScalaImport);
  t_consumedSymbolsByScope : Py.dict (list string);
  t_scopes : list string
}.

Definition symbols_json (l : list string) : json := JArr (map JStr l).

Definition import_repr (j : json) (i : ScalaImport) : Prop :=
  exists m,
    j = JObj m /\
    Py.getitem m "name" = Some (JStr (name i)) /\
    Py.getitem m "isWildcard" = Some (JBool (is_wildcard i)).

Definition imports_repr (kj : string * json) (kv : string * list ScalaImport)
    : Prop :=
  fst kj = fst kv /\
  exists js, snd kj = JArr js /\ Forall2 import_repr js (snd kv).

Record represents (d : Py.dict json) (t : Transport) : Prop := {
  rep_provided :
    Py.getitem d "providedSymbols"
    = Some (symbols_json (t_providedSymbols t));
  rep_provided_encoded :
    Py.getitem d "providedSymbolsEncoded"
    = Some (symbols_json (t_providedSymbolsEncoded t));
  rep_imports :
    exists jd,
      Py.getitem d "importsByScope" = Some (JObj jd) /\
      Forall2 imports_repr jd (t_importsByScope t);
  rep_consumed :
    Py.getitem d "consumedSymbolsByScope"
    = Some (JObj (map (fun kv => (fst kv, symbols_json (snd kv)))
                      (t_consumedSymbolsByScope t)));
  rep_scopes :
    Py.getitem d "scopes" = Some (symbols_json (t_scopes t));
  rep_imports_wf : Py.dict_wf (t_importsByScope t);
  rep_consumed_wf : Py.dict_wf (t_consumedSymbolsByScope t)
}.

(** [r] lists the distinct elements of [l], each at the place of its first
    occurrence: the elements before [x] in [r] are those that occur in [l]
    before the first [x]. *)
Definition first_occurrence_order (l r : list string) : Prop :=
  NoDup r /\
  (forall x, In x r <-> In x l) /\
  (forall l1 x l2,
     l = l1 ++ x :: l2 -> ~ In x l1 ->
     exists r1 r2, r = r1 ++ x :: r2 /\ forall y, In y r1 <-> In y l1).

Definition string_le (x y : string) : Prop := String.leb x y = true.

(** What [example_transport] says. *)
Definition example_transport_content : Transport :=
  {| t_providedSymbols := ["com.foo.Bar"; "com.foo.Bar"];
     t_providedSymbolsEncoded := ["com.foo.Bar"];
     t_importsByScope := [("com.foo.Bar", [mkScalaImport "com.baz._" true])];
     t_consumedSymbolsByScope := [("com.foo.Bar", ["Qux"; "Baz"; "Qux"])];
     t_scopes := ["com.foo.Bar"; "com"; "com.foo.Bar"] |}.

(* ------------------------------------------------------------------ *)
(** ** The wildcard index as a list comprehension (used only in proofs) *)

Definition wildcard_items (its : list (string * list ScalaImport))
    : Py.dict (list ScalaImport) :=
  flat_map
    (fun kv =>
       if Py.truthy (filter is_wildcard (snd kv))
       then [(fst kv, filter is_wildcard (snd kv))] else [])
    its.

(* ------------------------------------------------------------------ *)
(** ** Generator states: what is pending, how far from the end; two consumers *)

Section GeneratorMeasures.
Context `{SetIteration}.
Variable a : ScalaSourceDependencyAnalysis.

Definition wild_part (symbol : string) (ws : list ScalaImport) : list string :=
  map (fun wildcard_scope => Py.dotted (name wildcard_scope) symbol) ws.

Definition bare_part (symbol : string) : list string :=
  if negb (Py.truthy (scopes a)) || Py.str_in "." symbol
  then [symbol] else [].

Definition after_symbol (l : Locals) : list string :=
  flat_map (symbol_candidates a (l_psw l)) (l_syms l)
  ++ flat_map (scope_candidates a (l_wibs l)) (l_outer l).

(** What a generator in state [g] has still to yield. *)
Definition pending (g : Gen) : list string :=
  match g with
  | Created => fully_qualified_consumed_symbols a
  | Running AtOuter l => flat_map (scope_candidates a (l_wibs l)) (l_outer l)
  | Running AtSymbol l => after_symbol l
  | Running (AtScopes rest) l =>
      map (fun scope => Py.dotted scope (l_symbol l)) rest
      ++ bare_part (l_symbol l) ++ wild_part (l_symbol l) (l_psw l)
      ++ after_symbol l
  | Running AtBare l =>
      bare_part (l_symbol l) ++ wild_part (l_symbol l) (l_psw l)
      ++ after_symbol l
  | Running (AtWild rest) l => wild_part (l_symbol l) rest ++ after_symbol l
  | Finished => []
  end.

Definition moves_after_symbol (l : Locals) : nat :=
  List.length (l_syms l) * symbol_moves a (l_psw l) + 1
  + list_sum (map (scope_moves a (l_wibs l)) (l_outer l)) + 1.

(** How many moves a generator in state [g] is away from [Finished]. *)
Definition moves_left (g : Gen) : nat :=
  match g with
  | Created => gen_moves a
  | Running AtOuter l =>
      list_sum (map (scope_moves a (l_wibs l)) (l_outer l)) + 1
  | Running AtSymbol l => moves_after_symbol l
  | Running (AtScopes rest) l =>
      (List.length rest + 1) + 1 + (List.length (l_psw l) + 1)
      + moves_after_symbol l
  | Running AtBare l =>
      1 + (List.length (l_psw l) + 1) + moves_after_symbol l
  | Running (AtWild rest) l => (List.length rest + 1) + moves_after_symbol l
  | Finished => 0
  end.

(** Two consumers, each with a generator of its own over the same analysis;
    [sched] tells which of them makes the next move ([true]: the first). *)
Fixpoint two_consumers (sched : list bool)
    (c1 c2 : Gen * list string) : (Gen * list string) * (Gen * list string) :=
  match sched with
  | [] => (c1, c2)
  | true :: sched' =>
      let (g', o) := gen_step a (fst c1) in
      two_consumers sched' (g', snd c1 ++ emitted o) c2
  | false :: sched' =>
      let (g', o) := gen_step a (fst c2) in
      two_consumers sched' c1 (g', snd c2 ++ emitted o)
  end.

End GeneratorMeasures.

(* ------------------------------------------------------------------ *)
(** ** Further definitions: partial iteration, analyses that differ in what
       the resolver does not read, an engine that answers every request *)

(** [n] moves of one generator, with the values yielded on the way. *)
Fixpoint gen_advance `{SetIteration} (n : nat)
    (a : ScalaSourceDependencyAnalysis) (g : Gen) : Gen * list string :=
  match n with
  | O => (g, [])
  | S n' =>
      let (g', o) := gen_step a g in
      let (g'', os) := gen_advance n' a g' in
      (g'', emitted o ++ os)
  end.

(** [a] with other provided symbols and with the imports that are not
    wildcards removed from every scope. *)
Definition wildcards_only (provided provided_encoded : list string)
    (a : ScalaSourceDependencyAnalysis) : ScalaSourceDependencyAnalysis :=
  {| provided_symbols := provided;
     provided_symbols_encoded := provided_encoded;
     imports_by_scope :=
       map (fun kv => (fst kv, filter is_wildcard (snd kv)))
           (imports_by_scope a);
     consumed_symbols_by_scope := consumed_symbols_by_scope a;
     scopes := scopes a |}.

(** The same analysis with other consumed-symbol sets. *)
Definition with_consumed (consumed : Py.dict (list string))
    (a : ScalaSourceDependencyAnalysis) : ScalaSourceDependencyAnalysis :=
  {| provided_symbols := provided_symbols a;
     provided_symbols_encoded := provided_symbols_encoded a;
     imports_by_scope := imports_by_scope a;
     consumed_symbols_by_scope := consumed;
     scopes := scopes a |}.

(** An engine that answers every request. *)
Definition answering {Digest Env Caches Coordinate : Type}
    (answers : forall r : Request Digest Env Caches Coordinate, Response r)
    : Engine Digest Env Caches Coordinate :=
  fun r => inr (answers r).

(* ------------------------------------------------------------------ *)
(** ** The rule that compiles the parser

    [setup_scala_parser_classfiles] awaits requests of its own and can raise
    [AssertionError]; it gets a request type and a rule type of its own. *)

Inductive SetupExn : Type :=
| AssertionError (msg : string)
| EngineError (e : Exn).

Inductive DigestEntry : Type :=
| EntryFile (fc : FileContent)
| EntryDirectory (path : string).

Section SetupRule.

Variable Digest : Type.
Variable Env : Type.
Variable Caches : Type.
Variable Coordinate : Type.
Variable from_coord_str : string -> Coordinate.
(** [Coordinate(group=..., artifact=..., version=...)] *)
Variable mk_coordinate : string -> string -> string -> Coordinate.

(** The arguments [Process] is built with in this rule. *)
Record ScalacProcess : Type := {
  sp_argv : list string;
  sp_input_digest : Digest;
  sp_append_only_caches : Caches;
  sp_env : Env;
  sp_output_directories : list string;
  sp_description : string;
  sp_level : LogLevel
}.

Record ProcessResult : Type := {
  pr_stdout : string;
  pr_stderr : string;
  pr_output_digest : Digest
}.

Inductive SetupRequest : Type :=
| SGetMaterializedClasspath (r : MaterializedClasspathRequest Coordinate)
| SGetCreateDigest (entries : list DigestEntry)
| SGetMergeDigests (ds : list Digest)
| SGetProcessResult (p : ScalacProcess)
| SGetRemovePrefix (d : Digest) (prefix : string).

Definition SetupResponse (r : SetupRequest) : Type :=
  match r with
  | SGetMaterializedClasspath _ => MaterializedClasspath Digest
  | SGetCreateDigest _ => Digest
  | SGetMergeDigests _ => Digest
  | SGetProcessResult _ => ProcessResult
  | SGetRemovePrefix _ _ => Digest
  end.

Inductive SetupRule (A : Type) : Type :=
| SRet (a : A)
| SRaise (e : SetupExn)
| SGet (r : SetupRequest) (k : SetupResponse r -> SetupRule A).
Arguments SRet {A} a.
Arguments SRaise {A} e.
Arguments SGet {A} r k.

(** The engine answers a request or fails it; [Get(ProcessResult, Process)]
    fails when the process does. *)
Definition SetupEngine : Type := forall r : SetupRequest, Exn + SetupResponse r.

Fixpoint setup_run {A} (engine : SetupEngine) (m : SetupRule A)
    : (SetupExn + A) * list SetupRequest :=
  match m with
  | SRet a => (inr a, [])
  | SRaise e => (inl e, [])
  | SGet r k =>
      match engine r with
      | inl e => (inl (EngineError e), [r])
      | inr x => let (o, t) := setup_run engine (k x) in (o, r :: t)
      end
  end.

(** [setup_scala_parser_classfiles].  [parser_source_content] is what
    [pkgutil.get_data] returns: [None], or the bytes of the resource.  A call
    of [get_data] that raises (the file is not there) leaves the rule before
    its first test and is not part of this definition.  The
    three requests of the [MultiGet] are awaited in the order they are
    written. *)
Definition setup_scala_parser_classfiles
    (parser_source_content : option string)
    (bash : BashBinary) (jdk_setup : JdkSetup Digest Env Caches)
    : SetupRule (ScalaParserCompiledClassfiles Digest) :=
  let dest_dir := "classfiles" in
  match parser_source_content with
  | None => SRaise (AssertionError "Unable to find ScalaParser.scala resource.")
  | Some EmptyString =>
      SRaise (AssertionError "Unable to find ScalaParser.scala resource.")
  | Some content =>
    let parser_source :=
      {| fc_path := "ScalaParser.scala"; content := content |} in
    SGet (SGetMaterializedClasspath
            {| mcr_prefix := "__toolcp";
               mcr_artifact_requirements :=
                 [ [ mk_coordinate "org.scala-lang" "scala-compiler"
                                   PARSER_SCALA_VERSION;
                     mk_coordinate "org.scala-lang" "scala-library"
                                   PARSER_SCALA_VERSION;
                     mk_coordinate "org.scala-lang" "scala-reflect"
                                   PARSER_SCALA_VERSION ] ] |})
      (fun tool_classpath : MaterializedClasspath Digest =>
    SGet (SGetMaterializedClasspath
            {| mcr_prefix := "__parsercp";
               mcr_artifact_requirements :=
                 [SCALA_PARSER_ARTIFACT_REQUIREMENTS from_coord_str] |})
      (fun parser_classpath : MaterializedClasspath Digest =>
    SGet (SGetCreateDigest [EntryFile parser_source; EntryDirectory dest_dir])
      (fun source_digest : Digest =>
    SGet (SGetMergeDigests
            [ mc_digest tool_classpath;
              mc_digest parser_classpath;
              jdk_digest jdk_setup;
              source_digest ])
      (fun merged_digest : Digest =>
    SGet (SGetProcessResult
            {| sp_argv :=
                 jdk_args jdk_setup bash (classpath_entries tool_classpath)
                 ++ [ "scala.tools.nsc.Main";
                      "-bootclasspath";
                      String.concat ":" (classpath_entries tool_classpath);
                      "-classpath";
                      String.concat ":" (classpath_entries parser_classpath);
                      "-d";
                      dest_dir;
                      fc_path parser_source ];
               sp_input_digest := merged_digest;
               sp_append_only_caches := jdk_append_only_caches jdk_setup;
               sp_env := jdk_env jdk_setup;
               sp_output_directories := [dest_dir];
               sp_description :=
                 "Compile Scala parser for dependency inference with scalac";
               sp_level := DEBUG |})
      (fun process_result : ProcessResult =>
    SGet (SGetRemovePrefix (pr_output_digest process_result) dest_dir)
      (fun stripped_classfiles_digest : Digest =>
    SRet {| classfiles_digest := stripped_classfiles_digest |}))))))
  end.

End SetupRule.

Arguments SRet {Digest Env Caches Coordinate A} a.
Arguments SRaise {Digest Env Caches Coordinate A} e.
Arguments SGetMaterializedClasspath {Digest Env Caches Coordinate} r.
Arguments SGetCreateDigest {Digest Env Caches Coordinate} entries.
Arguments SGetMergeDigests {Digest Env Caches Coordinate} ds.
Arguments SGetProcessResult {Digest Env Caches Coordinate} p.
Arguments SGetRemovePrefix {Digest Env Caches Coordinate} d prefix.

(** Answers of an engine on which every request succeeds: the parser process
    ends with exit code 0 and its output digest holds one file. *)
Definition succeeding_answers (r : Request unit unit unit unit) : Response r :=
  match r with
  | GetMaterializedClasspath _ =>
      {| mc_digest := tt; classpath_entries := ["__toolcp/scalameta.jar"] |}
  | GetAddPrefix _ _ => tt
  | GetMergeDigests _ => tt
  | GetFallibleProcessResult _ =>
      {| stdout := "parsed";
         stderr := EmptyString;
         exit_code := 0%Z;
         output_digest := tt |}
  | GetDigestContents _ =>
      [ {| fc_path := "__source_analysis.json"; content := "{}" |} ]
  end.

Definition setup_answers (r : SetupRequest unit unit unit unit)
    : SetupResponse r :=
  match r with
  | SGetMaterializedClasspath _ =>
      {| mc_digest := tt;
         classpath_entries := ["__cp/scala-compiler.jar"; "__cp/scala-library.jar"] |}
  | SGetCreateDigest _ => tt
  | SGetMergeDigests _ => tt
  | SGetProcessResult _ =>
      {| pr_stdout := EmptyString; pr_stderr := EmptyString;
         pr_output_digest := tt |}
  | SGetRemovePrefix _ _ => tt
  end.

(* ================================================================== *)
(** * Properties of the primitives *)
(* ================================================================== *)

Section PyFacts.

Lemma prefix_nil (s : string) : String.prefix EmptyString s = true.
Proof. destruct s; reflexivity. Qed.

Lemma startswith_app (p r : string) : Py.startswith (p ++ r)%string p = true.
Proof.
  unfold Py.startswith.
  induction p as [|c p IH]; simpl.
  - apply prefix_nil.
  - destruct (ascii_dec c c) as [_|N]; [exact IH | now elim N].
Qed.

(** [startswith] is the textual prefix test. *)
Lemma startswith_iff (s p : string) :
  Py.startswith s p = true <-> exists r, s = (p ++ r)%string.
Proof.
  split.
  - unfold Py.startswith. revert s.
    induction p as [|c p IH]; intros s Hp.
    + exists s. reflexivity.
    + destruct s as [|d s]; simpl in Hp; [discriminate|].
      destruct (ascii_dec c d) as [->|_]; [|discriminate].
      destruct (IH s Hp) as [r ->]. exists r. reflexivity.
  - intros [r ->]. apply startswith_app.
Qed.

Lemma truthy_false {A} (l : list A) : Py.truthy l = false <-> l = [].
Proof. destruct l; simpl; split; congruence. Qed.

Lemma truthy_true {A} (l : list A) : Py.truthy l = true <-> l <> [].
Proof. destruct l; simpl; split; congruence. Qed.

(** [sub in s] holds exactly when [s] is [a ++ sub ++ b]. *)
Lemma str_in_iff (sub s : string) :
  Py.str_in sub s = true <-> exists a b, s = (a ++ sub ++ b)%string.
Proof.
  split.
  - induction s as [|c s IH]; simpl; rewrite orb_true_iff.
    + intros [Hp|Hf]; [|discriminate].
      apply (startswith_iff EmptyString sub) in Hp. destruct Hp as [r Hr].
      exists EmptyString, r. exact Hr.
    + intros [Hp|Hin].
      * apply (startswith_iff (String c s) sub) in Hp.
        destruct Hp as [r Hr]. exists EmptyString, r. exact Hr.
      * destruct (IH Hin) as [a [b ->]]. exists (String c a), b. reflexivity.
  - intros [a [b ->]]. induction a as [|c a IH].
    + simpl append.
      assert (Hp : String.prefix sub (sub ++ b)%string = true)
        by apply startswith_app.
      remember (sub ++ b)%string as t eqn:Et. clear Et.
      destruct t; simpl in *; rewrite Hp; reflexivity.
    + simpl. rewrite IH. apply orb_true_r.
Qed.

Variable V : Type.

Lemma setitem_fresh (d : Py.dict V) k v :
  ~ In k (Py.keys d) -> Py.setitem d k v = d ++ [(k, v)].
Proof.
  induction d as [|[k' v'] d IH]; simpl; intros Hk; [reflexivity|].
  destruct (String.eqb_spec k' k) as [->|_].
  - elim Hk. now left.
  - rewrite IH; [reflexivity | tauto].
Qed.

Lemma keys_app (d1 d2 : Py.dict V) :
  Py.keys (d1 ++ d2) = Py.keys d1 ++ Py.keys d2.
Proof. apply map_app. Qed.

Lemma keys_setitem_In (d : Py.dict V) k v x :
  In x (Py.keys (Py.setitem d k v)) <-> x = k \/ In x (Py.keys d).
Proof.
  induction d as [|[k' v'] d IH]; simpl.
  - intuition congruence.
  - destruct (String.eqb_spec k' k) as [->|_]; simpl.
    + intuition congruence.
    + rewrite IH. intuition congruence.
Qed.

(** Setting an item keeps the keys distinct. *)
Lemma setitem_wf (d : Py.dict V) k v :
  Py.dict_wf d -> Py.dict_wf (Py.setitem d k v).
Proof.
  unfold Py.dict_wf.
  induction d as [|[k' v'] d IH]; simpl; intros Hd.
  - constructor; [intros [] | constructor].
  - inversion Hd as [|? ? Hn Hd']; subst.
    destruct (String.eqb_spec k' k) as [->|Hne]; simpl.
    + constructor; assumption.
    + constructor; [|auto].
      rewrite keys_setitem_In. intros [->|Hin]; [now elim Hne | contradiction].
Qed.

Lemma getitem_In (d : Py.dict V) k v :
  Py.dict_wf d -> (Py.getitem d k = Some v <-> In (k, v) d).
Proof.
  unfold Py.dict_wf.
  induction d as [|[k' v'] d IH]; simpl; intros Hd.
  - split; [discriminate | tauto].
  - inversion Hd as [|? ? Hn Hd']; subst.
    destruct (String.eqb_spec k' k) as [->|Hne].
    + split.
      * intros [= ->]. now left.
      * intros [[= ->]|Hin]; [reflexivity|].
        elim Hn. change k with (fst (k, v)). now apply in_map.
    + rewrite (IH Hd'). split; [tauto|].
      intros [[= -> _]|Hin]; [now elim Hne | assumption].
Qed.

End PyFacts.

(** On items with distinct keys a dict comprehension is a map over them. *)
Lemma dict_comp_acc {V W} (f : V -> W) (its : list (string * V))
    (acc : Py.dict W) :
  NoDup (Py.keys acc ++ map fst its) ->
  fold_left (fun acc kv => Py.setitem acc (fst kv) (f (snd kv))) its acc
  = acc ++ map (fun kv => (fst kv, f (snd kv))) its.
Proof.
  revert acc.
  induction its as [|[k v] its IH]; simpl; intros acc Hnd.
  - now rewrite app_nil_r.
  - rewrite setitem_fresh.
    + rewrite IH.
      * now rewrite <- app_assoc.
      * rewrite keys_app, <- app_assoc. exact Hnd.
    + apply NoDup_remove_2 in Hnd. intros Hin. apply Hnd.
      apply in_or_app. now left.
Qed.

Lemma dict_comp_map {V W} (f : V -> W) (its : list (string * V)) :
  NoDup (map fst its) ->
  Py.dict_comp f its = map (fun kv => (fst kv, f (snd kv))) its.
Proof.
  intros Hnd. unfold Py.dict_comp. now rewrite dict_comp_acc.
Qed.


(* ================================================================== *)
(** * Properties of the resolver *)
(* ================================================================== *)

Lemma keys_wildcard_items its x :
  In x (Py.keys (wildcard_items its)) -> In x (map fst its).
Proof.
  induction its as [|[k v] its IH]; simpl; [tauto|].
  unfold Py.keys in *. rewrite map_app, in_app_iff.
  intros [Hin|Hin]; [|right; auto].
  destruct (Py.truthy (filter is_wildcard v)); simpl in Hin; tauto.
Qed.

Lemma wildcard_fold its acc :
  NoDup (Py.keys acc ++ map fst its) ->
  fold_left wildcard_step its acc = acc ++ wildcard_items its.
Proof.
  revert acc.
  induction its as [|[k v] its IH]; simpl; intros acc Hnd.
  - now rewrite app_nil_r.
  - unfold wildcard_step at 2. simpl.
    destruct (Py.truthy (filter is_wildcard v)) eqn:Ht.
    + rewrite setitem_fresh.
      * rewrite IH; [now rewrite <- app_assoc|].
        rewrite keys_app, <- app_assoc. exact Hnd.
      * apply NoDup_remove_2 in Hnd. intros Hin. apply Hnd.
        apply in_or_app. now left.
    + rewrite IH; [reflexivity|].
      now apply NoDup_remove_1 in Hnd.
Qed.

(** The wildcard index of a well-formed analysis holds, for every scope with
    a wildcard import, the wildcard imports of that scope in order. *)
Lemma wildcard_imports_by_scope_items a :
  Py.dict_wf (imports_by_scope a) ->
  wildcard_imports_by_scope a = wildcard_items (imports_by_scope a).
Proof.
  intros Hwf. unfold wildcard_imports_by_scope, Py.items.
  now rewrite wildcard_fold.
Qed.

Lemma In_wildcard_items its s wis :
  In (s, wis) (wildcard_items its) <->
  exists imports,
    In (s, imports) its /\ wis = filter is_wildcard imports /\ wis <> [].
Proof.
  unfold wildcard_items. rewrite in_flat_map. split.
  - intros [[k v] [Hin Hsel]]. simpl in Hsel.
    destruct (Py.truthy (filter is_wildcard v)) eqn:Ht; simpl in Hsel;
      [|tauto].
    destruct Hsel as [[= <- <-]|[]].
    exists v. repeat split; [assumption|]. now apply truthy_true.
  - intros [imports [Hin [-> Hne]]].
    exists (s, imports). split; [assumption|]. simpl.
    apply truthy_true in Hne. rewrite Hne. now left.
Qed.

Lemma In_added wibs scope wi :
  In wi (parent_scope_wildcards_added wibs scope) <->
  exists s wis, In (s, wis) wibs /\ In wi wis /\ Py.startswith scope s = true.
Proof.
  unfold parent_scope_wildcards_added, Py.items. rewrite in_flat_map. split.
  - intros [[s wis] [Hin Hf]]. simpl in Hf. apply filter_In in Hf.
    exists s, wis. tauto.
  - intros [s [wis [Hin [Hwi Hp]]]]. exists (s, wis). split; [assumption|].
    simpl. apply filter_In. tauto.
Qed.

(** Which imports the resolver takes for the wildcards in scope of [scope]. *)
Lemma In_parent_scope_wildcards `{SetIteration} a scope wi :
  Py.dict_wf (imports_by_scope a) ->
  (In wi (parent_scope_wildcards (wildcard_imports_by_scope a) scope) <->
   exists A imports,
     In (A, imports) (imports_by_scope a) /\ In wi imports /\
     is_wildcard wi = true /\ Py.startswith scope A = true).
Proof.
  intros Hwf. unfold parent_scope_wildcards.
  rewrite set_iter_In, In_added, wildcard_imports_by_scope_items by assumption.
  split.
  - intros [s [wis [Hin [Hwi Hp]]]].
    apply In_wildcard_items in Hin. destruct Hin as [imports [Hin [-> _]]].
    apply filter_In in Hwi. exists s, imports. tauto.
  - intros [A [imports [Hin [Hwi [Hw Hp]]]]].
    exists A, (filter is_wildcard imports). repeat split; [| |assumption].
    + apply In_wildcard_items. exists imports. repeat split; [assumption|].
      intros Hnil. assert (Hf : In wi (filter is_wildcard imports))
        by (apply filter_In; tauto).
      rewrite Hnil in Hf. exact Hf.
    + apply filter_In. tauto.
Qed.

(** Membership in the candidate sequence. *)
Lemma In_candidates `{SetIteration} a c :
  In c (fully_qualified_consumed_symbols a) <->
  exists scope syms symbol,
    In (scope, syms) (consumed_symbols_by_scope a) /\ In symbol syms /\
    In c (symbol_candidates a
            (parent_scope_wildcards (wildcard_imports_by_scope a) scope)
            symbol).
Proof.
  unfold fully_qualified_consumed_symbols, Py.items. rewrite in_flat_map.
  split.
  - intros [[scope syms] [Hin Hc]]. unfold scope_candidates in Hc. simpl in Hc.
    apply in_flat_map in Hc. destruct Hc as [symbol [Hs Hc]].
    exists scope, syms, symbol. tauto.
  - intros [scope [syms [symbol [Hin [Hs Hc]]]]].
    exists (scope, syms). split; [assumption|].
    unfold scope_candidates. simpl. apply in_flat_map. exists symbol. tauto.
Qed.

Lemma In_symbol_candidates a psw symbol c :
  In c (symbol_candidates a psw symbol) <->
  (exists T, In T (scopes a) /\ c = Py.dotted T symbol) \/
  ((scopes a = [] \/ Py.str_in "." symbol = true) /\ c = symbol) \/
  (exists w, In w psw /\ c = Py.dotted (name w) symbol).
Proof.
  unfold symbol_candidates. rewrite !in_app_iff, !in_map_iff.
  assert (Hb : In c (if negb (Py.truthy (scopes a)) || Py.str_in "." symbol
                     then [symbol] else [])
               <-> (scopes a = [] \/ Py.str_in "." symbol = true) /\ c = symbol).
  { destruct (negb (Py.truthy (scopes a)) || Py.str_in "." symbol) eqn:E;
      simpl.
    - apply orb_true_iff in E. rewrite negb_true_iff, truthy_false in E.
      intuition congruence.
    - apply orb_false_iff in E. rewrite negb_false_iff, truthy_true in E.
      intuition congruence. }
  rewrite Hb. split.
  - intros [[T [E Hin]]|[Hbare|[w [E Hin]]]]; eauto.
  - intros [[T [Hin E]]|[Hbare|[w [Hin E]]]]; eauto.
Qed.

(** A set built from one element is iterated as that element. *)
Lemma set_iter_singleton `{SetIteration} x : set_iter [x] = [x].
Proof.
  pose proof (set_iter_NoDup [x]) as Hnd.
  pose proof (set_iter_In [x]) as Hin.
  destruct (set_iter [x]) as [|y l].
  - destruct (proj2 (Hin x)). now left.
  - assert (y = x) as ->.
    { destruct (proj1 (Hin y)) as [E|[]]; [now left | now symmetry]. }
    destruct l as [|z l]; [reflexivity|].
    assert (z = x) as ->.
    { destruct (proj1 (Hin z)) as [E|[]]; [right; now left | now symmetry]. }
    inversion Hnd as [|? ? Hn _]. elim Hn. now left.
Qed.

Lemma set_iter_nil `{SetIteration} : set_iter [] = [].
Proof.
  pose proof (set_iter_In []) as Hin.
  destruct (set_iter []) as [|y l]; [reflexivity|].
  destruct (proj1 (Hin y)). now left.
Qed.

Ltac nodup_by_computation :=
  repeat (constructor; [simpl; intuition discriminate|]); constructor.

(** With any set iteration order, the worked example yields exactly the two
    candidates the specification names. *)
Lemma example_candidates `{SetIteration} :
  fully_qualified_consumed_symbols example_analysis
  = ["com.foo.Bar.Qux"; "com.baz._.Qux"].
Proof.
  unfold fully_qualified_consumed_symbols, scope_candidates,
    parent_scope_wildcards.
  cbn. rewrite set_iter_singleton. reflexivity.
Qed.

(** C1 (over-approximation).  In a well-formed analysis, let [sym] be consumed
    in scope [S], and let [w] be a wildcard import declared in a scope [A] that
    is a string prefix of [S]: then ["{w.name}.{sym}"] is among the
    candidates. *)
Theorem wildcard_over_approximation `{SetIteration}
    (a : ScalaSourceDependencyAnalysis)
    (S : string) (syms : list string) (sym : string)
    (A : string) (imports : list ScalaImport) (w : ScalaImport) :
  Py.dict_wf (imports_by_scope a) ->
  In (S, syms) (consumed_symbols_by_scope a) ->
  In sym syms ->
  In (A, imports) (imports_by_scope a) ->
  In w imports ->
  is_wildcard w = true ->
  Py.startswith S A = true ->
  In (Py.dotted (name w) sym) (fully_qualified_consumed_symbols a).
Proof.
  intros Hwf HS Hsym HA Hw Hwild Hpre.
  apply In_candidates. exists S, syms, sym. repeat split; try assumption.
  apply In_symbol_candidates. right. right. exists w. split; [|reflexivity].
  apply In_parent_scope_wildcards; [assumption|].
  exists A, imports. tauto.
Qed.

Lemma wildcard_over_approximation_witness :
  Py.dict_wf (imports_by_scope foobar_analysis) /\
  In "org.lib.Widget"
     (@fully_qualified_consumed_symbols nodup_iteration foobar_analysis).
Proof.
  split.
  - unfold Py.dict_wf. simpl. nodup_by_computation.
  - apply (@wildcard_over_approximation nodup_iteration foobar_analysis
             "com.foobar" ["Widget"] "Widget"
             "com.foo" [mkScalaImport "org.lib" true]
             (mkScalaImport "org.lib" true)).
    + unfold Py.dict_wf. simpl. nodup_by_computation.
    + simpl. now left.
    + simpl. now left.
    + simpl. now left.
    + simpl. now left.
    + reflexivity.
    + reflexivity.
Defined.



(** C4 (every scope qualifies every consumed symbol).  For a symbol [sym]
    consumed in any scope and any [T] in [scopes], ["{T}.{sym}"] is among the
    candidates; and the worked example yields both ["com.foo.Bar.Qux"] and
    ["com.baz._.Qux"]. *)
Theorem every_scope_qualifies `{SetIteration} :
  (forall (a : ScalaSourceDependencyAnalysis)
          (S : string) (syms : list string) (sym T : string),
     In (S, syms) (consumed_symbols_by_scope a) ->
     In sym syms ->
     In T (scopes a) ->
     In (Py.dotted T sym) (fully_qualified_consumed_symbols a))
  /\
  (In "com.foo.Bar.Qux" (fully_qualified_consumed_symbols example_analysis) /\
   In "com.baz._.Qux" (fully_qualified_consumed_symbols example_analysis)).
Proof.
  split.
  - intros a S syms sym T HS Hsym HT.
    apply In_candidates. exists S, syms, sym. repeat split; try assumption.
    apply In_symbol_candidates. left. exists T. now split.
  - rewrite example_candidates. simpl. tauto.
Qed.

Lemma every_scope_qualifies_witness :
  In "com.foobar.Widget"
     (@fully_qualified_consumed_symbols nodup_iteration foobar_analysis).
Proof.
  apply (proj1 (@every_scope_qualifies nodup_iteration) foobar_analysis
           "com.foobar" ["Widget"] "Widget" "com.foobar");
    simpl; now left.
Defined.

(** C5 (bare symbol).  A consumed symbol is itself among the candidates as
    soon as [scopes] is empty or the symbol contains a ["."]. *)
Theorem bare_symbol_candidate `{SetIteration}
    (a : ScalaSourceDependencyAnalysis)
    (S : string) (syms : list string) (sym : string) :
  In (S, syms) (consumed_symbols_by_scope a) ->
  In sym syms ->
  scopes a = [] \/ Py.str_in "." sym = true ->
  In sym (fully_qualified_consumed_symbols a).
Proof.
  intros HS Hsym Hbare.
  apply In_candidates. exists S, syms, sym. repeat split; try assumption.
  apply In_symbol_candidates. right. left. now split.
Qed.

Lemma bare_symbol_candidate_witness :
  In "scala.Option"
     (@fully_qualified_consumed_symbols nodup_iteration
        {| provided_symbols := [];
           provided_symbols_encoded := [];
           imports_by_scope := [];
           consumed_symbols_by_scope := [("com.foo", ["scala.Option"; "Bar"])];
           scopes := ["com.foo"] |})
  /\
  In "Bar"
     (@fully_qualified_consumed_symbols nodup_iteration
        {| provided_symbols := [];
           provided_symbols_encoded := [];
           imports_by_scope := [];
           consumed_symbols_by_scope := [("com.foo", ["scala.Option"; "Bar"])];
           scopes := [] |}).
Proof.
  split.
  - apply (@bare_symbol_candidate nodup_iteration _ "com.foo"
             ["scala.Option"; "Bar"] "scala.Option"); simpl; auto.
  - apply (@bare_symbol_candidate nodup_iteration _ "com.foo"
             ["scala.Option"; "Bar"] "Bar"); simpl; auto.
Defined.

(* ================================================================== *)
(** * The generator machine yields the candidate sequence *)
(* ================================================================== *)

Section GeneratorFacts.
Context `{SetIteration}.
Variable a : ScalaSourceDependencyAnalysis.

(** A move yields the head of what is pending and brings the generator one
    move closer to [Finished]. *)
Lemma gen_step_pending (g g' : Gen) (o : option string) :
  g <> Finished ->
  gen_step a g = (g', o) ->
  pending a g = emitted o ++ pending a g' /\
  moves_left a g = S (moves_left a g').
Proof.
  intros Hg Hstep.
  destruct g as [|pc l|]; [| |now elim Hg].
  - (* Created *)
    simpl in Hstep. injection Hstep as <- <-. simpl.
    unfold gen_moves. split; [reflexivity | lia].
  - destruct pc as [| |rest| |rest]; simpl in Hstep.
    + (* AtOuter *)
      destruct (l_outer l) as [|[scope consumed] outer] eqn:E;
        injection Hstep as <- <-; simpl; rewrite E; simpl.
      * split; reflexivity.
      * unfold after_symbol, moves_after_symbol, scope_candidates, scope_moves.
        simpl. split; [reflexivity | lia].
    + (* AtSymbol *)
      destruct (l_syms l) as [|symbol syms] eqn:E;
        injection Hstep as <- <-; simpl;
        unfold after_symbol, moves_after_symbol; rewrite E; simpl.
      * split; [reflexivity | lia].
      * unfold symbol_candidates, bare_part, wild_part, symbol_moves.
        rewrite <- !app_assoc. split; [reflexivity | lia].
    + (* AtScopes *)
      destruct rest as [|scope rest]; injection Hstep as <- <-; simpl.
      * split; [reflexivity | lia].
      * unfold after_symbol, moves_after_symbol. simpl.
        split; [reflexivity | lia].
    + (* AtBare *)
      injection Hstep as <- <-. simpl. unfold bare_part.
      destruct (negb (Py.truthy (scopes a)) || Py.str_in "." (l_symbol l));
        simpl; split; reflexivity || lia.
    + (* AtWild *)
      destruct rest as [|w rest]; injection Hstep as <- <-; simpl.
      * split; [reflexivity | lia].
      * split; [reflexivity | lia].
Qed.

Lemma gen_step_Finished : gen_step a Finished = (Finished, None).
Proof. reflexivity. Qed.

Lemma moves_left_zero (g : Gen) : moves_left a g = 0 -> g = Finished.
Proof.
  intros Hz. destruct g as [|pc l|]; [| |reflexivity].
  - destruct (gen_step a Created) as [g' o] eqn:E.
    apply gen_step_pending in E; [lia | discriminate].
  - destruct (gen_step a (Running pc l)) as [g' o] eqn:E.
    apply gen_step_pending in E; [lia | discriminate].
Qed.

Lemma gen_eq_Finished (g : Gen) : g = Finished \/ g <> Finished.
Proof. destruct g; (now left) || (right; discriminate). Qed.

Lemma gen_list_S (fuel : nat) (g : Gen) :
  g <> Finished ->
  gen_list (S fuel) a g
  = option_map (app (emitted (snd (gen_step a g))))
               (gen_list fuel a (fst (gen_step a g))).
Proof.
  intros Hg. destruct g as [|pc l|]; [| |now elim Hg];
    cbn [gen_list]; destruct (gen_step a _); reflexivity.
Qed.

(** Given at least [moves_left] moves, draining a generator returns what is
    pending. *)
Lemma gen_list_pending (fuel : nat) (g : Gen) :
  moves_left a g <= fuel -> gen_list fuel a g = Some (pending a g).
Proof.
  revert g. induction fuel as [|fuel IH]; intros g Hle.
  - assert (g = Finished) as -> by (apply moves_left_zero; lia).
    reflexivity.
  - destruct (gen_eq_Finished g) as [->|Hg]; [reflexivity|].
    rewrite gen_list_S by assumption.
    destruct (gen_step a g) as [g' o] eqn:E.
    apply gen_step_pending in E; [|assumption]. destruct E as [Ep Em].
    simpl fst. simpl snd. rewrite IH by lia. simpl. now rewrite Ep.
Qed.

(** Two consumers that keep to their own generator both end with what was
    pending for them, however their moves are interleaved. *)
Lemma two_consumers_finish (F : list string) (sched : list bool)
    (c1 c2 : Gen * list string) :
  snd c1 ++ pending a (fst c1) = F ->
  snd c2 ++ pending a (fst c2) = F ->
  moves_left a (fst c1) <= count_occ bool_dec sched true ->
  moves_left a (fst c2) <= count_occ bool_dec sched false ->
  two_consumers a sched c1 c2 = ((Finished, F), (Finished, F)).
Proof.
  revert c1 c2.
  induction sched as [|b sched IH]; intros [g1 o1] [g2 o2]; simpl fst; simpl snd;
    intros H1 H2 M1 M2.
  - simpl in M1, M2.
    assert (g1 = Finished) as -> by (apply moves_left_zero; lia).
    assert (g2 = Finished) as -> by (apply moves_left_zero; lia).
    simpl in H1, H2. rewrite app_nil_r in H1, H2. now subst.
  - destruct b; simpl two_consumers.
    + destruct (gen_step a g1) as [g' o] eqn:E.
      apply IH; simpl fst; simpl snd; try assumption.
      * destruct g1 as [|pc l|];
          [apply gen_step_pending in E; [|discriminate]
          |apply gen_step_pending in E; [|discriminate]
          |injection E as <- <-; simpl; rewrite app_nil_r; exact H1];
          destruct E as [Ep _]; rewrite <- app_assoc, <- Ep; exact H1.
      * simpl in M1.
        destruct g1 as [|pc l|];
          [apply gen_step_pending in E; [|discriminate]
          |apply gen_step_pending in E; [|discriminate]
          |injection E as <- <-; simpl; lia];
          lia.
    + destruct (gen_step a g2) as [g' o] eqn:E.
      apply IH; simpl fst; simpl snd; try assumption.
      * destruct g2 as [|pc l|];
          [apply gen_step_pending in E; [|discriminate]
          |apply gen_step_pending in E; [|discriminate]
          |injection E as <- <-; simpl; rewrite app_nil_r; exact H2];
          destruct E as [Ep _]; rewrite <- app_assoc, <- Ep; exact H2.
      * simpl in M2.
        destruct g2 as [|pc l|];
          [apply gen_step_pending in E; [|discriminate]
          |apply gen_step_pending in E; [|discriminate]
          |injection E as <- <-; simpl; lia];
          lia.
Qed.

End GeneratorFacts.


(* ================================================================== *)
(** * Properties of the rules *)
(* ================================================================== *)

Section RuleFacts.
Variables Digest Env Caches Coordinate : Type.
Variable from_coord_str : string -> Coordinate.
Variable json_loads : string -> option json.

Local Abbreviation Rule := (Rule Digest Env Caches Coordinate).
Local Abbreviation Engine := (Engine Digest Env Caches Coordinate).

(** Running a sequence of two rules: the requests of the first, then those of
    the second if the first returned. *)
Lemma run_bind {A B} (engine : Engine) (m : Rule A) (f : A -> Rule B) :
  run engine (Rule_bind m f)
  = match run engine m with
    | (Ok x, t) => let (o, t') := run engine (f x) in (o, t ++ t')
    | (Err e, t) => (Err e, t)
    end.
Proof.
  induction m as [x|e|r k IH]; simpl.
  - destruct (run engine (f x)); reflexivity.
  - reflexivity.
  - destruct (engine r) as [e|x]; [reflexivity|].
    rewrite IH. destruct (run engine (k x)) as [[y|e] t]; [|reflexivity].
    destruct (run engine (f y)); reflexivity.
Qed.

(** When the first rule returns, it was given exactly one file, its last
    request was the parser process, described as "Analyzing <file>", and its
    product is the engine's answer to that request. *)
Lemma analyze_returns (engine : Engine) bash jdk_setup processor_classfiles
    source_files fallible_result trace :
  run engine (analyze_scala_source_dependencies from_coord_str bash jdk_setup
                processor_classfiles source_files)
  = (Ok fallible_result, trace) ->
  exists file p before,
    files source_files = [file] /\
    trace = before ++ [GetFallibleProcessResult p] /\
    description p = ("Analyzing " ++ file)%string /\
    engine (GetFallibleProcessResult p)
    = inr (process_result fallible_result).
Proof.
  unfold analyze_scala_source_dependencies.
  destruct (files source_files) as [|file [|file' more]] eqn:Ef; simpl;
    try discriminate.
  repeat match goal with
         | |- context [engine ?r] =>
             let E := fresh "E" in
             destruct (engine r) eqn:E; simpl; try discriminate
         end.
  intros [= <- <-].
  eexists file, _, [_; _; _; _; _]. simpl.
  repeat split. exact E4.
Qed.

(** C9 (wrong number of files).  Given no source file, or more than one, the
    first rule is a bare [raise ValueError(...)]: whatever the engine, the
    rule and the pipeline fail with that error and no request has been made,
    the parser process included. *)
Theorem wrong_file_count_fails_fast (engine : Engine) bash jdk_setup
    processor_classfiles (source_files : SourceFiles Digest) global_options :
  List.length (files source_files) <> 1 ->
  let msg :=
    if (List.length (files source_files) =? 0)%nat
    then "analyze_scala_source_dependencies expects sources with exactly 1 source file, but found none."
    else ("analyze_scala_source_dependencies expects sources with exactly 1 source file, but found "
          ++ Py.str_of_nat
               (List.length (snapshot_files (snapshot source_files)))
          ++ ".")%string in
  analyze_scala_source_dependencies from_coord_str bash jdk_setup
    processor_classfiles source_files
  = Raise (ValueError msg)
  /\
  run engine
    (analyze_scala_source_dependencies from_coord_str bash jdk_setup
       processor_classfiles source_files)
  = (Err (ValueError msg), [])
  /\
  run engine
    (analysis_pipeline from_coord_str json_loads bash jdk_setup
       processor_classfiles source_files global_options)
  = (Err (ValueError msg), []).
Proof.
  intros Hlen msg.
  assert (E : analyze_scala_source_dependencies from_coord_str bash jdk_setup
                processor_classfiles source_files
              = Raise (ValueError msg)).
  { unfold analyze_scala_source_dependencies, msg.
    destruct (files source_files) as [|f0 [|f1 more]]; simpl in *;
      [reflexivity | now elim Hlen | reflexivity]. }
  unfold analysis_pipeline. rewrite E. simpl. auto.
Qed.

(** When a captured stream is not UTF-8, the failure of the parser surfaces
    as the [UnicodeDecodeError] of the constructor. *)
Lemma parser_failure_undecodable (engine : Engine) bash jdk_setup
    processor_classfiles (source_files : SourceFiles Digest) global_options
    fallible_result trace :
  run engine
    (analyze_scala_source_dependencies from_coord_str bash jdk_setup
       processor_classfiles source_files)
  = (Ok fallible_result, trace) ->
  exit_code (process_result fallible_result) <> 0%Z ->
  Py.utf8_valid (stdout (process_result fallible_result))
  && Py.utf8_valid (stderr (process_result fallible_result)) = false ->
  run engine
    (analysis_pipeline from_coord_str json_loads bash jdk_setup
       processor_classfiles source_files global_options)
  = (Err UnicodeDecodeError, trace).
Proof.
  intros Hrun Hexit Hdec.
  unfold analysis_pipeline. rewrite run_bind, Hrun.
  unfold resolve_fallible_result_to_analysis, new_ProcessExecutionFailure.
  apply Z.eqb_neq in Hexit. rewrite Hexit, Hdec. simpl.
  now rewrite app_nil_r.
Qed.

(** C3 (parser failure).  When the first rule returns a result whose exit
    code is not zero and whose stdout and stderr are well-formed UTF-8, the
    pipeline raises [ProcessExecutionFailure] with that exit code, that stdout
    and that stderr, and with the constant description
    "Scala source dependency analysis failed."; it makes no further request.
    The error is the same whatever the source file: any run of the pipeline,
    on any sources and against any engine, whose first rule returned the same
    result raises the same error. *)
Theorem parser_failure_raises (engine : Engine) bash jdk_setup
    processor_classfiles (source_files : SourceFiles Digest) global_options
    fallible_result trace :
  run engine
    (analyze_scala_source_dependencies from_coord_str bash jdk_setup
       processor_classfiles source_files)
  = (Ok fallible_result, trace) ->
  exit_code (process_result fallible_result) <> 0%Z ->
  Py.utf8_valid (stdout (process_result fallible_result)) = true ->
  Py.utf8_valid (stderr (process_result fallible_result)) = true ->
  run engine
    (analysis_pipeline from_coord_str json_loads bash jdk_setup
       processor_classfiles source_files global_options)
  = (Err (ProcessExecutionFailure
            (exit_code (process_result fallible_result))
            (stdout (process_result fallible_result))
            (stderr (process_result fallible_result))
            "Scala source dependency analysis failed."
            (process_execution_local_cleanup global_options)),
     trace)
  /\
  (forall (engine' : Engine) bash' jdk_setup' processor_classfiles'
          (source_files' : SourceFiles Digest) trace',
     run engine'
       (analyze_scala_source_dependencies from_coord_str bash' jdk_setup'
          processor_classfiles' source_files')
     = (Ok fallible_result, trace') ->
     fst (run engine'
            (analysis_pipeline from_coord_str json_loads bash' jdk_setup'
               processor_classfiles' source_files' global_options))
     = fst (run engine
              (analysis_pipeline from_coord_str json_loads bash jdk_setup
                 processor_classfiles source_files global_options))).
Proof.
  intros Hrun Hexit Hout Herr.
  assert (Hraise : forall (e : Engine) b j pc (sf : SourceFiles Digest) t,
            run e (analyze_scala_source_dependencies from_coord_str b j pc sf)
            = (Ok fallible_result, t) ->
            run e (analysis_pipeline from_coord_str json_loads b j pc sf
                     global_options)
            = (Err (ProcessExecutionFailure
                      (exit_code (process_result fallible_result))
                      (stdout (process_result fallible_result))
                      (stderr (process_result fallible_result))
                      "Scala source dependency analysis failed."
                      (process_execution_local_cleanup global_options)),
               t)).
  { intros e b j pc sf t Ht.
    unfold analysis_pipeline. rewrite run_bind, Ht.
    unfold resolve_fallible_result_to_analysis, new_ProcessExecutionFailure.
    apply Z.eqb_neq in Hexit. rewrite Hexit, Hout, Herr. simpl.
    now rewrite app_nil_r. }
  split.
  - now apply Hraise.
  - intros engine' bash' jdk_setup' processor_classfiles' source_files' trace'
           Hrun'.
    rewrite (Hraise _ _ _ _ _ _ Hrun'), (Hraise _ _ _ _ _ _ Hrun).
    reflexivity.
Qed.

End RuleFacts.

Lemma wrong_file_count_fails_fast_witness :
  run failing_engine
    (analysis_pipeline (fun _ => tt) (fun _ => None) {| bash_path := "/bin/bash" |}
       trivial_jdk {| classfiles_digest := tt |} (sources_of [])
       {| process_execution_local_cleanup := true |})
  = (Err (ValueError
            "analyze_scala_source_dependencies expects sources with exactly 1 source file, but found none."),
     [])
  /\
  run failing_engine
    (analysis_pipeline (fun _ => tt) (fun _ => None) {| bash_path := "/bin/bash" |}
       trivial_jdk {| classfiles_digest := tt |}
       (sources_of ["src/A.scala"; "src/B.scala"])
       {| process_execution_local_cleanup := true |})
  = (Err (ValueError
            "analyze_scala_source_dependencies expects sources with exactly 1 source file, but found 2."),
     []).
Proof.
  split.
  - apply (@wrong_file_count_fails_fast unit unit unit unit (fun _ => tt)
             (fun _ => None) failing_engine {| bash_path := "/bin/bash" |}
             trivial_jdk {| classfiles_digest := tt |} (sources_of [])
             {| process_execution_local_cleanup := true |}).
    simpl. lia.
  - apply (@wrong_file_count_fails_fast unit unit unit unit (fun _ => tt)
             (fun _ => None) failing_engine {| bash_path := "/bin/bash" |}
             trivial_jdk {| classfiles_digest := tt |}
             (sources_of ["src/A.scala"; "src/B.scala"])
             {| process_execution_local_cleanup := true |}).
    simpl. lia.
Defined.

(** The pipeline run on [src/jvm/Foo.scala] against the failing engine: the
    error raised carries the exit code and both streams, and its description
    does not contain the path of the file. *)
Lemma failure_description_omits_file :
  exists trace,
    run failing_engine
      (analysis_pipeline (fun _ => tt) (fun _ => None)
         {| bash_path := "/bin/bash" |} trivial_jdk
         {| classfiles_digest := tt |} (sources_of ["src/jvm/Foo.scala"])
         {| process_execution_local_cleanup := true |})
    = (Err (ProcessExecutionFailure 1 EmptyString "error: illegal start of definition"
              "Scala source dependency analysis failed." true),
       trace)
    /\
    description_names
      (ProcessExecutionFailure 1 EmptyString "error: illegal start of definition"
         "Scala source dependency analysis failed." true)
      "src/jvm/Foo.scala"
    = false.
Proof.
  eexists. split; reflexivity.
Qed.

Lemma parser_failure_raises_witness :
  exists trace,
    run failing_engine
      (analysis_pipeline (fun _ => tt) (fun _ => None)
         {| bash_path := "/bin/bash" |} trivial_jdk
         {| classfiles_digest := tt |} (sources_of ["src/jvm/Foo.scala"])
         {| process_execution_local_cleanup := true |})
    = (Err (ProcessExecutionFailure 1 EmptyString "error: illegal start of definition"
              "Scala source dependency analysis failed." true),
       trace).
Proof.
  eexists.
  refine (proj1 (@parser_failure_raises unit unit unit unit (fun _ => tt)
                   (fun _ => None) failing_engine {| bash_path := "/bin/bash" |}
                   trivial_jdk {| classfiles_digest := tt |}
                   (sources_of ["src/jvm/Foo.scala"])
                   {| process_execution_local_cleanup := true |}
                   {| process_result :=
                        {| stdout := EmptyString;
                           stderr := "error: illegal start of definition";
                           exit_code := 1%Z;
                           output_digest := tt |} |}
                   _ _ _ _ _)).
  - reflexivity.
  - simpl. discriminate.
  - reflexivity.
  - reflexivity.
Defined.

(* ================================================================== *)
(** * Restartability and totality of the resolver *)
(* ================================================================== *)

Lemma pending_length `{SetIteration} (a : ScalaSourceDependencyAnalysis)
    (n : nat) (g : Gen) :
  moves_left a g <= n -> List.length (pending a g) <= moves_left a g.
Proof.
  revert g. induction n as [|n IH]; intros g Hle.
  - assert (g = Finished) as -> by (apply (moves_left_zero a); lia).
    simpl. lia.
  - destruct (gen_eq_Finished g) as [->|Hg]; [simpl; lia|].
    destruct (gen_step a g) as [g' o] eqn:E.
    apply gen_step_pending in E; [|assumption]. destruct E as [Ep Em].
    rewrite Ep, Em, length_app.
    assert (List.length (pending a g') <= moves_left a g') by (apply IH; lia).
    destruct o; simpl; lia.
Qed.

(** C7 (determinism, restartability).  Two consumers iterate the same
    analysis, each through a generator of its own, their moves interleaved in
    any order [sched].  Once each has made enough moves to exhaust its
    generator, both generators are finished and both consumers hold the same
    sequence, element for element: the candidate sequence of the analysis. *)
Theorem iteration_is_restartable `{SetIteration}
    (a : ScalaSourceDependencyAnalysis) (sched : list bool) :
  gen_moves a <= count_occ bool_dec sched true ->
  gen_moves a <= count_occ bool_dec sched false ->
  two_consumers a sched (Created, []) (Created, [])
  = ((Finished, fully_qualified_consumed_symbols a),
     (Finished, fully_qualified_consumed_symbols a)).
Proof.
  intros M1 M2. apply two_consumers_finish; simpl; auto.
Qed.

Lemma iteration_is_restartable_witness :
  let sched := repeat true 4 ++ repeat false 10 ++ repeat true 6 in
  gen_moves (H := nodup_iteration) example_analysis
    <= count_occ bool_dec sched true /\
  gen_moves (H := nodup_iteration) example_analysis
    <= count_occ bool_dec sched false /\
  two_consumers (H := nodup_iteration) example_analysis sched
    (Created, []) (Created, [])
  = ((Finished, ["com.foo.Bar.Qux"; "com.baz._.Qux"]),
     (Finished, ["com.foo.Bar.Qux"; "com.baz._.Qux"])).
Proof.
  intros sched.
  assert (M1 : gen_moves (H := nodup_iteration) example_analysis
               <= count_occ bool_dec sched true) by (vm_compute; lia).
  assert (M2 : gen_moves (H := nodup_iteration) example_analysis
               <= count_occ bool_dec sched false) by (vm_compute; lia).
  split; [exact M1|]. split; [exact M2|].
  exact (@iteration_is_restartable nodup_iteration example_analysis sched
           M1 M2).
Defined.

(** C8 (totality).  For every analysis the generator stops: within
    [gen_moves a] moves it is exhausted, no move fails, and what it has
    yielded is the candidate sequence, a list of at most [gen_moves a]
    strings.  More fuel changes nothing. *)
Theorem resolver_is_total `{SetIteration}
    (a : ScalaSourceDependencyAnalysis) (extra : nat) :
  gen_list (gen_moves a + extra) a Created
  = Some (fully_qualified_consumed_symbols a)
  /\
  List.length (fully_qualified_consumed_symbols a) <= gen_moves a.
Proof.
  split.
  - change (fully_qualified_consumed_symbols a) with (pending a Created).
    apply gen_list_pending.
    change (moves_left a Created) with (gen_moves a). lia.
  - apply (@pending_length _ a (gen_moves a) Created).
    change (moves_left a Created) with (gen_moves a). lia.
Qed.


(* ================================================================== *)
(** * Ordered sets and sorting *)
(* ================================================================== *)

Lemma In_FrozenOrderedSet (l : list string) (x : string) :
  In x (FrozenOrderedSet l) <-> In x l.
Proof.
  induction l as [|y l IH]; simpl; [tauto|].
  rewrite filter_In, IH, negb_true_iff, String.eqb_neq.
  destruct (string_dec y x) as [->|Hne]; [tauto|].
  intuition congruence.
Qed.

Lemma NoDup_FrozenOrderedSet (l : list string) : NoDup (FrozenOrderedSet l).
Proof.
  induction l as [|y l IH]; simpl; constructor.
  - rewrite filter_In, negb_true_iff, String.eqb_neq. tauto.
  - now apply NoDup_filter.
Qed.

Lemma filter_neq_notin (x : string) (l : list string) :
  ~ In x l -> filter (fun y => negb (String.eqb y x)) l = l.
Proof.
  induction l as [|y l IH]; simpl; intros Hn; [reflexivity|].
  destruct (String.eqb_spec y x) as [->|_]; simpl.
  - elim Hn. now left.
  - rewrite IH; [reflexivity | tauto].
Qed.

(** A list without repetition is its own ordered set. *)
Lemma FrozenOrderedSet_NoDup (l : list string) :
  NoDup l -> FrozenOrderedSet l = l.
Proof.
  induction 1 as [|x l Hn Hnd IH]; simpl; [reflexivity|].
  now rewrite IH, filter_neq_notin.
Qed.

Lemma FrozenOrderedSet_first_occurrence (l : list string) :
  first_occurrence_order l (FrozenOrderedSet l).
Proof.
  split; [apply NoDup_FrozenOrderedSet|].
  split; [apply In_FrozenOrderedSet|].
  intros l1. revert l.
  induction l1 as [|z l1 IH]; intros l x l2 -> Hn; simpl.
  - exists [], (filter (fun y => negb (String.eqb y x)) (FrozenOrderedSet l2)).
    split; [reflexivity | tauto].
  - destruct (IH (l1 ++ x :: l2) x l2 eq_refl) as [r1 [r2 [Er Hr1]]].
    { intros Hin. apply Hn. now right. }
    rewrite Er, filter_app. simpl.
    destruct (String.eqb_spec x z) as [->|Hxz].
    { elim Hn. now left. }
    simpl.
    exists (z :: filter (fun y => negb (String.eqb y z)) r1),
           (filter (fun y => negb (String.eqb y z)) r2).
    split; [reflexivity|].
    intros y. simpl.
    rewrite filter_In, Hr1, negb_true_iff, String.eqb_neq.
    destruct (string_dec z y) as [->|Hne]; [tauto|].
    intuition congruence.
Qed.

Lemma filter_filter_swap {A} (p q : A -> bool) (l : list A) :
  filter p (filter q l) = filter q (filter p l).
Proof.
  induction l as [|x l IH]; simpl; [reflexivity|].
  destruct (q x) eqn:Eq, (p x) eqn:Ep; simpl; rewrite ?Eq, ?Ep, IH;
    reflexivity.
Qed.

Lemma filter_absorb (p : string -> bool) (z : string) (l : list string) :
  p z = false ->
  filter p (filter (fun y => negb (String.eqb y z)) l) = filter p l.
Proof.
  intros Hz. induction l as [|x l IH]; simpl; [reflexivity|].
  destruct (String.eqb_spec x z) as [->|_]; simpl.
  - now rewrite Hz.
  - now rewrite IH.
Qed.

(** Filtering commutes with building the ordered set. *)
Lemma FrozenOrderedSet_filter (p : string -> bool) (l : list string) :
  FrozenOrderedSet (filter p l) = filter p (FrozenOrderedSet l).
Proof.
  induction l as [|z l IH]; simpl; [reflexivity|].
  destruct (p z) eqn:Ez; simpl.
  - now rewrite IH, filter_filter_swap.
  - now rewrite IH, filter_absorb.
Qed.

Lemma filter_split {A} (p : A -> bool) (l a b : list A) (y : A) :
  filter p l = a ++ y :: b ->
  exists m1 m2,
    l = m1 ++ y :: m2 /\ filter p m1 = a /\ filter p m2 = b /\ p y = true.
Proof.
  revert a. induction l as [|x l IH]; simpl; intros a E.
  - now destruct a.
  - destruct (p x) eqn:Ex.
    + destruct a as [|x' a]; simpl in E; injection E as <- E.
      * exists [], l. simpl. auto.
      * destruct (IH a E) as [m1 [m2 [-> [<- [<- Hy]]]]].
        exists (x :: m1), m2. simpl. rewrite Ex. auto.
    + destruct (IH a E) as [m1 [m2 [-> [<- [<- Hy]]]]].
      exists (x :: m1), m2. simpl. rewrite Ex. auto.
Qed.

(** The ordered set is the only list in first-occurrence order. *)
Lemma first_occurrence_unique (l r : list string) :
  first_occurrence_order l r -> r = FrozenOrderedSet l.
Proof.
  remember (List.length l) as n eqn:En. revert l r En.
  induction n as [n IH] using lt_wf_ind. intros l r -> [Hnd [Hin Hpos]].
  destruct l as [|x l]; simpl.
  - destruct r as [|y r]; [reflexivity|].
    destruct (proj1 (Hin y)). now left.
  - destruct (Hpos [] x l eq_refl) as [r1 [r2 [-> Hr1]]]; [tauto|].
    assert (r1 = []) as ->.
    { destruct r1 as [|y r1]; [reflexivity|].
      destruct (proj1 (Hr1 y)). now left. }
    simpl in *. f_equal.
    inversion Hnd as [|? ? Hx Hnd2]; subst.
    set (neq := fun y => negb (String.eqb y x)) in *.
    rewrite <- FrozenOrderedSet_filter.
    apply (IH (List.length (filter neq l))); [|reflexivity|].
    { simpl. pose proof (filter_length_le neq l). lia. }
    assert (Hneq : forall y, neq y = true <-> y <> x).
    { intros y. unfold neq. now rewrite negb_true_iff, String.eqb_neq. }
    split; [exact Hnd2|]. split.
    + intros y. rewrite filter_In, Hneq. split.
      * intros Hy. assert (Hyx : y <> x) by (intros ->; contradiction).
        destruct (proj1 (Hin y)) as [->|Hl]; [now right | now elim Hyx | tauto].
      * intros [Hl Hyx].
        destruct (proj2 (Hin y)) as [->|Hr]; [now right | now elim Hyx | assumption].
    + intros l1 y l2 El Hy.
      destruct (@filter_split _ neq l l1 l2 y El) as [m1 [m2 [-> [<- [<- Hpy]]]]].
      apply Hneq in Hpy.
      destruct (Hpos (x :: m1) y m2 eq_refl) as [q1 [q2 [Eq Hq1]]].
      { intros [->|Hm]; [now elim Hpy|].
        apply Hy. apply filter_In. split; [assumption | now apply Hneq]. }
      destruct q1 as [|z q1].
      { destruct (proj2 (Hq1 x)). now left. }
      simpl in Eq. injection Eq as <- ->.
      exists q1, q2. split; [reflexivity|].
      intros w. rewrite filter_In, Hneq. split.
      * intros Hw.
        assert (Hwx : w <> x).
        { intros ->. apply Hx. apply in_or_app. now left. }
        destruct (proj1 (Hq1 w)) as [->|Hm]; [now right | now elim Hwx | tauto].
      * intros [Hm Hwx].
        destruct (proj2 (Hq1 w)) as [->|Hq]; [now right | now elim Hwx | assumption].
Qed.

Lemma ascii_compare_Lt (x y : ascii) :
  Ascii.compare x y = Lt <-> (N_of_ascii x < N_of_ascii y)%N.
Proof. unfold Ascii.compare. apply N.compare_lt_iff. Qed.

Lemma ascii_compare_Eq (x y : ascii) : Ascii.compare x y = Eq <-> x = y.
Proof.
  split; [apply Ascii.compare_eq_iff|].
  intros ->. unfold Ascii.compare. apply N.compare_refl.
Qed.

Lemma string_leb_cons (x y : ascii) (s t : string) :
  String.leb (String x s) (String y t) = true <->
  (N_of_ascii x < N_of_ascii y)%N \/ (x = y /\ String.leb s t = true).
Proof.
  unfold String.leb. simpl.
  destruct (Ascii.compare x y) eqn:E.
  - apply ascii_compare_Eq in E. subst. split; [tauto|].
    intros [Hlt|[_ Hle]]; [lia | exact Hle].
  - apply ascii_compare_Lt in E. tauto.
  - split; [discriminate|].
    unfold Ascii.compare in E. apply N.compare_gt_iff in E.
    intros [Hlt|[-> _]]; lia.
Qed.

Lemma string_le_trans (s t u : string) :
  string_le s t -> string_le t u -> string_le s u.
Proof.
  unfold string_le. revert t u.
  induction s as [|x s IH]; intros [|y t] [|z u]; try reflexivity;
    try discriminate.
  rewrite !string_leb_cons.
  intros [H1|[-> H1]] [H2|[-> H2]]; [left; lia | tauto | tauto |].
  right. split; [reflexivity|]. eauto.
Qed.

Lemma string_le_total (s t : string) : string_le s t \/ string_le t s.
Proof. apply String.leb_total. Qed.

Lemma string_le_antisym (s t : string) :
  string_le s t -> string_le t s -> s = t.
Proof. apply String.leb_antisym. Qed.

Lemma insert_sorted_Permutation (x : string) (l : list string) :
  Permutation (Py.insert_sorted x l) (x :: l).
Proof.
  induction l as [|y l IH]; simpl; [reflexivity|].
  destruct (String.leb x y); [reflexivity|].
  rewrite IH. apply perm_swap.
Qed.

Lemma insert_sorted_Sorted (x : string) (l : list string) :
  StronglySorted string_le l -> StronglySorted string_le (Py.insert_sorted x l).
Proof.
  induction 1 as [|y l Hs IH Hall]; simpl.
  - constructor; constructor.
  - destruct (String.leb x y) eqn:E.
    + constructor; [now constructor|].
      constructor; [exact E|].
      eapply Forall_impl; [|exact Hall].
      intros z Hz. now apply string_le_trans with y.
    + constructor; [exact IH|].
      rewrite (insert_sorted_Permutation x l).
      constructor; [|exact Hall].
      destruct (string_le_total x y) as [Hxy|Hyx]; [|exact Hyx].
      unfold string_le in Hxy. congruence.
Qed.

Lemma sorted_Permutation (l : list string) : Permutation (Py.sorted l) l.
Proof.
  induction l as [|x l IH]; simpl; [reflexivity|].
  rewrite insert_sorted_Permutation. now constructor.
Qed.

Lemma sorted_Sorted (l : list string) : StronglySorted string_le (Py.sorted l).
Proof.
  induction l as [|x l IH]; simpl; [constructor|].
  now apply insert_sorted_Sorted.
Qed.

(** An ascending list is determined by its elements: [Py.sorted l] is the
    result of any sorting algorithm on [l]. *)
Lemma sorted_unique (l r : list string) :
  StronglySorted string_le r -> Permutation r l -> r = Py.sorted l.
Proof.
  intros Hr Hp.
  assert (Hs : StronglySorted string_le (Py.sorted l)) by apply sorted_Sorted.
  assert (Hq : Permutation r (Py.sorted l)).
  { now rewrite sorted_Permutation. }
  clear Hp. revert Hs Hq. generalize (Py.sorted l) as q.
  induction Hr as [|x r Hr IH Hall]; intros q Hq Hp.
  - apply Permutation_nil in Hp. now subst.
  - destruct Hq as [|y q Hq Hall'].
    + symmetry in Hp. now apply Permutation_nil in Hp.
    + assert (x = y) as ->.
      { apply string_le_antisym.
        - assert (Hin : In y (x :: r))
            by (apply Permutation_in with (y :: q);
                [now symmetry | now left]).
          destruct Hin as [->|Hin].
          + destruct (string_le_total y y); assumption.
          + rewrite Forall_forall in Hall. now apply Hall.
        - assert (Hin : In x (y :: q))
            by (apply Permutation_in with (x :: r); [assumption | now left]).
          destruct Hin as [->|Hin].
          + destruct (string_le_total x x); assumption.
          + rewrite Forall_forall in Hall'. now apply Hall'. }
      f_equal. apply IH; [assumption|].
      now apply Permutation_cons_inv with y.
Qed.

(* ================================================================== *)
(** * Properties of the serialisation *)
(* ================================================================== *)

Lemma as_str_list_symbols (l : list string) :
  as_str_list (symbols_json l) = Ok l.
Proof.
  unfold as_str_list, symbols_json. simpl.
  induction l as [|x l IH]; simpl; [reflexivity|].
  now rewrite IH.
Qed.

Lemma import_from_repr (j : json) (i : ScalaImport) :
  import_repr j i -> ScalaImport_from_json_dict j = Ok i.
Proof.
  intros [m [-> [Hn Hw]]].
  unfold ScalaImport_from_json_dict, subscript. simpl.
  rewrite Hn. simpl. rewrite Hw. simpl. now destruct i.
Qed.

Lemma mapM_imports (js : list json) (imports : list ScalaImport) :
  Forall2 import_repr js imports ->
  mapM ScalaImport_from_json_dict js = Ok imports.
Proof.
  induction 1 as [|j i js imports Hj _ IH]; simpl; [reflexivity|].
  rewrite (import_from_repr Hj). simpl. now rewrite IH.
Qed.

(** A comprehension whose body succeeds on every item, over distinct keys,
    appends the results in order. *)
Lemma dict_compM_ok {V W} (f : V -> result W)
    (its : list (string * V)) (outs acc : Py.dict W) :
  Forall2 (fun kv kw => fst kv = fst kw /\ f (snd kv) = Ok (snd kw)) its outs ->
  NoDup (Py.keys acc ++ Py.keys outs) ->
  dict_compM f its acc = Ok (acc ++ outs).
Proof.
  intros Hall. revert acc.
  induction Hall as [|[k v] [k' w] its outs [Hk Hf] _ IH]; intros acc Hnd;
    simpl in *.
  - now rewrite app_nil_r.
  - subst k'. rewrite Hf. simpl. rewrite setitem_fresh.
    + rewrite IH; [now rewrite <- app_assoc|].
      rewrite keys_app, <- app_assoc. exact Hnd.
    + apply NoDup_remove_2 in Hnd. intros Hin. apply Hnd.
      apply in_or_app. now left.
Qed.

(** What a transport record of content [t] is decoded to. *)
Lemma from_json_dict_represents (d : Py.dict json) (t : Transport) :
  represents d t ->
  from_json_dict d
  = Ok {| provided_symbols := FrozenOrderedSet (t_providedSymbols t);
          provided_symbols_encoded :=
            FrozenOrderedSet (t_providedSymbolsEncoded t);
          imports_by_scope := t_importsByScope t;
          consumed_symbols_by_scope :=
            map (fun kv => (fst kv, FrozenOrderedSet (snd kv)))
                (t_consumedSymbolsByScope t);
          scopes := FrozenOrderedSet (t_scopes t) |}.
Proof.
  intros [Hp Hpe [jd [Hi Hjd]] Hc Hs Hiwf Hcwf].
  unfold from_json_dict, subscript.
  rewrite Hp. simpl result_bind. rewrite as_str_list_symbols. simpl result_bind.
  rewrite Hpe. simpl result_bind. rewrite as_str_list_symbols.
  simpl result_bind.
  rewrite Hi. simpl result_bind. unfold Py.items.
  rewrite (@dict_compM_ok _ _ _ jd (t_importsByScope t) []).
  - simpl result_bind. rewrite Hc. simpl result_bind.
    rewrite (@dict_compM_ok _ _ _ _
               (map (fun kv => (fst kv, FrozenOrderedSet (snd kv)))
                    (t_consumedSymbolsByScope t)) []).
    + simpl result_bind. rewrite Hs. simpl result_bind.
      rewrite as_str_list_symbols. reflexivity.
    + clear. induction (t_consumedSymbolsByScope t) as [|[k v] l IH]; simpl;
        constructor; [|exact IH].
      simpl. split; [reflexivity|]. now rewrite as_str_list_symbols.
    + simpl. unfold Py.keys. rewrite map_map. simpl. exact Hcwf.
  - eapply Forall2_impl; [|exact Hjd].
    intros [k j] [k' imports] [Hk [js [Hj Hjs]]]. simpl in *. subst.
    split; [reflexivity|]. simpl. now apply mapM_imports.
  - simpl. exact Hiwf.
Qed.

Lemma example_transport_represents :
  represents example_transport example_transport_content.
Proof.
  constructor; try reflexivity.
  - eexists. split; [reflexivity|].
    repeat constructor. simpl. eexists. split; [reflexivity|].
    repeat constructor. eexists. repeat split.
  - unfold Py.dict_wf. simpl. nodup_by_computation.
  - unfold Py.dict_wf. simpl. nodup_by_computation.
Defined.

(** C6 (round trip).  A transport record of content [t] is decoded to an
    analysis whose debug form holds: the provided symbols, the encoded
    provided symbols and the scopes as ordered sets of the lists of [t]; the
    imports of every scope as they are in [t], in the same order, under the
    same scope keys in the same order, each import as the object of its name
    under ["name"] and its flag under ["is_wildcard"]; the consumed symbols
    of every scope as the ascending rearrangement of their ordered set.  An
    ordered set has the elements of its list, in order of first occurrence,
    and is that list when nothing is repeated; [sorted] rearranges in
    ascending order. *)
Theorem debug_round_trip (d : Py.dict json) (t : Transport) :
  represents d t ->
  exists a,
    from_json_dict d = Ok a /\
    to_debug_json_dict a
    = JObj
        [ ("provided_symbols",
            symbols_json (FrozenOrderedSet (t_providedSymbols t)));
          ("provided_symbols_encoded",
            symbols_json (FrozenOrderedSet (t_providedSymbolsEncoded t)));
          ("imports_by_scope",
            JObj (map (fun kv =>
                         (fst kv,
                          JArr (map (fun i =>
                                       JObj [ ("name", JStr (name i));
                                              ("is_wildcard",
                                                JBool (is_wildcard i)) ])
                                    (snd kv))))
                      (t_importsByScope t)));
          ("consumed_symbols_by_scope",
            JObj (map (fun kv =>
                         (fst kv,
                          symbols_json
                            (Py.sorted (FrozenOrderedSet (snd kv)))))
                      (t_consumedSymbolsByScope t)));
          ("scopes", symbols_json (FrozenOrderedSet (t_scopes t))) ] /\
    (forall l : list string,
       (forall x, In x (FrozenOrderedSet l) <-> In x l) /\
       (NoDup l -> FrozenOrderedSet l = l) /\
       first_occurrence_order l (FrozenOrderedSet l)) /\
    (forall l : list string,
       StronglySorted string_le (Py.sorted l) /\
       Permutation (Py.sorted l) l).
Proof.
  intros Hrep. eexists. split; [apply from_json_dict_represents, Hrep|].
  destruct Hrep as [_ _ _ _ _ Hiwf Hcwf].
  split; [|split].
  - unfold to_debug_json_dict. simpl. unfold Py.items.
    rewrite !dict_comp_map.
    + rewrite map_map. reflexivity.
    + rewrite map_map. exact Hcwf.
    + exact Hiwf.
  - intros l. split; [|split].
    + intros x. apply In_FrozenOrderedSet.
    + apply FrozenOrderedSet_NoDup.
    + apply FrozenOrderedSet_first_occurrence.
  - intros l. split; [apply sorted_Sorted | apply sorted_Permutation].
Qed.

Lemma debug_round_trip_witness :
  represents example_transport example_transport_content /\
  exists a,
    from_json_dict example_transport = Ok a /\
    to_debug_json_dict a
    = JObj
        [ ("provided_symbols", JArr [JStr "com.foo.Bar"]);
          ("provided_symbols_encoded", JArr [JStr "com.foo.Bar"]);
          ("imports_by_scope",
            JObj [("com.foo.Bar",
                   JArr [JObj [("name", JStr "com.baz._");
                               ("is_wildcard", JBool true)]])]);
          ("consumed_symbols_by_scope",
            JObj [("com.foo.Bar", JArr [JStr "Baz"; JStr "Qux"])]);
          ("scopes", JArr [JStr "com.foo.Bar"; JStr "com"]) ].
Proof.
  split; [exact example_transport_represents|].
  destruct (debug_round_trip example_transport_represents)
    as [a [Hdec [Hdebug _]]].
  exists a. split; [exact Hdec|]. rewrite Hdebug. reflexivity.
Defined.

(** C10 (deduplication).  Decoding a transport record of content [t]
    succeeds whatever is repeated in its lists; the provided symbols, the
    encoded provided symbols, the scopes and the consumed symbols of every
    scope of the analysis hold each element of the corresponding list once,
    in order of first occurrence, and the analysis is well formed. *)
Theorem deserialization_deduplicates (d : Py.dict json) (t : Transport) :
  represents d t ->
  exists a,
    from_json_dict d = Ok a /\
    first_occurrence_order (t_providedSymbols t) (provided_symbols a) /\
    first_occurrence_order (t_providedSymbolsEncoded t)
      (provided_symbols_encoded a) /\
    first_occurrence_order (t_scopes t) (scopes a) /\
    Forall2
      (fun kv ka =>
         fst kv = fst ka /\ first_occurrence_order (snd kv) (snd ka))
      (t_consumedSymbolsByScope t) (consumed_symbols_by_scope a) /\
    wf_analysis a.
Proof.
  intros Hrep. eexists. split; [apply from_json_dict_represents, Hrep|].
  destruct Hrep as [_ _ _ _ _ Hiwf Hcwf]. simpl.
  repeat split; try apply FrozenOrderedSet_first_occurrence;
    try apply NoDup_FrozenOrderedSet; simpl.
  - induction (t_consumedSymbolsByScope t) as [|[k v] l IH]; simpl;
      constructor.
    + simpl. split; [reflexivity|]. apply FrozenOrderedSet_first_occurrence.
    + apply IH. now inversion Hcwf.
  - exact Hiwf.
  - unfold Py.dict_wf, Py.keys. rewrite map_map. exact Hcwf.
  - intros s syms Hin. apply in_map_iff in Hin.
    destruct Hin as [[k v] [[= _ <-] _]]. apply NoDup_FrozenOrderedSet.
Qed.

Lemma deserialization_deduplicates_witness :
  represents example_transport example_transport_content /\
  exists a,
    from_json_dict example_transport = Ok a /\
    provided_symbols a = ["com.foo.Bar"] /\
    scopes a = ["com.foo.Bar"; "com"] /\
    consumed_symbols_by_scope a = [("com.foo.Bar", ["Qux"; "Baz"])] /\
    wf_analysis a.
Proof.
  split; [exact example_transport_represents|].
  destruct (deserialization_deduplicates example_transport_represents)
    as [a [Hdec [_ [_ [_ [_ Hwf]]]]]].
  exists a. split; [exact Hdec|].
  assert (E : Ok a
              = Ok {| provided_symbols := ["com.foo.Bar"];
                      provided_symbols_encoded := ["com.foo.Bar"];
                      imports_by_scope :=
                        [("com.foo.Bar", [mkScalaImport "com.baz._" true])];
                      consumed_symbols_by_scope :=
                        [("com.foo.Bar", ["Qux"; "Baz"])];
                      scopes := ["com.foo.Bar"; "com"] |})
    by (rewrite <- Hdec; reflexivity).
  injection E as ->. repeat split; try reflexivity; apply Hwf.
Defined.

(* ================================================================== *)
(** * Further properties of the resolver *)
(* ================================================================== *)

Lemma In_setitem {V} (d : Py.dict V) (k : string) (v : V) (kv : string * V) :
  In kv (Py.setitem d k v) -> kv = (k, v) \/ In kv d.
Proof.
  induction d as [|[k' v'] d IH]; simpl.
  - intros [<-|[]]. now left.
  - destruct (String.eqb_spec k' k) as [->|_]; simpl.
    + intros [<-|Hin]; [now left | right; now right].
    + intros [<-|Hin]; [right; now left|].
      destruct (IH Hin) as [->|Hd]; [now left | right; now right].
Qed.

(** The first loop keeps the index well formed and puts into it nothing but
    the non-empty wildcard part of an entry of [imports_by_scope]. *)
Lemma wildcard_fold_invariant (its : list (string * list ScalaImport))
    (acc : Py.dict (list ScalaImport)) :
  Py.dict_wf acc ->
  (forall s wis, In (s, wis) acc ->
     wis <> [] /\ exists imports,
       In (s, imports) its /\ wis = filter is_wildcard imports) ->
  forall done,
    Py.dict_wf (fold_left wildcard_step done acc) /\
    (forall s wis, In (s, wis) (fold_left wildcard_step done acc) ->
       wis <> [] /\ exists imports,
         In (s, imports) (its ++ done) /\ wis = filter is_wildcard imports).
Proof.
  intros Hwf Hacc done. revert its acc Hwf Hacc.
  induction done as [|[k v] done IH]; intros its acc Hwf Hacc; simpl.
  - split; [exact Hwf|]. intros s wis Hin. rewrite app_nil_r. auto.
  - replace (its ++ (k, v) :: done) with ((its ++ [(k, v)]) ++ done)
      by (now rewrite <- app_assoc).
    apply IH.
    + unfold wildcard_step. simpl.
      destruct (Py.truthy (filter is_wildcard v)); [|exact Hwf].
      now apply setitem_wf.
    + intros s wis Hin. unfold wildcard_step in Hin. simpl in Hin.
      destruct (Py.truthy (filter is_wildcard v)) eqn:Et.
      * apply In_setitem in Hin. destruct Hin as [[= -> ->]|Hin].
        -- split; [now apply truthy_true|].
           exists v. split; [|reflexivity].
           apply in_or_app. right. now left.
        -- destruct (Hacc s wis Hin) as [Hne [imports [Hi Hw]]].
           split; [exact Hne|]. exists imports. split; [|exact Hw].
           apply in_or_app. now left.
      * destruct (Hacc s wis Hin) as [Hne [imports [Hi Hw]]].
        split; [exact Hne|]. exists imports. split; [|exact Hw].
        apply in_or_app. now left.
Qed.

Lemma wildcard_index_invariant_aux (a : ScalaSourceDependencyAnalysis) :
  Py.dict_wf (wildcard_imports_by_scope a) /\
  (forall s wis,
     In (s, wis) (wildcard_imports_by_scope a) ->
     exists imports,
       In (s, imports) (imports_by_scope a) /\
       wis = filter is_wildcard imports).
Proof.
  destruct (@wildcard_fold_invariant [] [] (NoDup_nil _)
              (fun s wis (H : In (s, wis) []) => match H with end)
              (Py.items (imports_by_scope a))) as [Hwf Hall].
  split; [exact Hwf|].
  intros s wis Hin. destruct (Hall s wis Hin) as [_ Hex]. exact Hex.
Qed.

(** X5.  Whatever the analysis, the index of wildcard imports built by the
    first loop has distinct keys, and each of its entries is a scope of
    [imports_by_scope] with the wildcard imports of one entry of that scope,
    in order, of which there is at least one. *)
Theorem wildcard_index_invariant (a : ScalaSourceDependencyAnalysis) :
  Py.dict_wf (wildcard_imports_by_scope a) /\
  (forall s wis,
     In (s, wis) (wildcard_imports_by_scope a) ->
     wis <> [] /\
     Forall (fun w => is_wildcard w = true) wis /\
     exists imports,
       In (s, imports) (imports_by_scope a) /\
       wis = filter is_wildcard imports).
Proof.
  destruct (@wildcard_fold_invariant [] [] (NoDup_nil _)
              (fun s wis (H : In (s, wis) []) => match H with end)
              (Py.items (imports_by_scope a))) as [Hwf Hall].
  split; [exact Hwf|].
  intros s wis Hin. destruct (Hall s wis Hin) as [Hne [imports [Hi ->]]].
  split; [exact Hne|]. split.
  - apply Forall_forall. intros w Hw. now apply filter_In in Hw.
  - exists imports. now split.
Qed.

Lemma wildcard_index_invariant_witness :
  [mkScalaImport "com.baz._" true] <> [] /\
  Forall (fun w => is_wildcard w = true) [mkScalaImport "com.baz._" true].
Proof.
  destruct (proj2 (wildcard_index_invariant example_analysis)
              "com.foo.Bar" [mkScalaImport "com.baz._" true])
    as [Hne [Hall _]].
  - simpl. now left.
  - split; assumption.
Defined.

Lemma str_in_dotted (q s : string) : Py.str_in "." (Py.dotted q s) = true.
Proof. apply str_in_iff. exists q, s. reflexivity. Qed.

(** X1.  In a well-formed analysis a string is a candidate exactly when, for
    some symbol [sym] consumed in some scope [S], it is ["{T}.{sym}"] for a
    [T] of [scopes], or [sym] itself with [scopes] empty or [sym] dotted, or
    ["{w.name}.{sym}"] for a wildcard import [w] of a scope that is a prefix
    of [S].  Nothing else is yielded; an import that is not a wildcard never
    qualifies a symbol. *)
Theorem candidates_characterised `{SetIteration}
    (a : ScalaSourceDependencyAnalysis) (c : string) :
  Py.dict_wf (imports_by_scope a) ->
  (In c (fully_qualified_consumed_symbols a) <->
   exists S syms sym,
     In (S, syms) (consumed_symbols_by_scope a) /\ In sym syms /\
     ((exists T, In T (scopes a) /\ c = Py.dotted T sym) \/
      ((scopes a = [] \/ Py.str_in "." sym = true) /\ c = sym) \/
      (exists A imports w,
         In (A, imports) (imports_by_scope a) /\ In w imports /\
         is_wildcard w = true /\ Py.startswith S A = true /\
         c = Py.dotted (name w) sym))).
Proof.
  intros Hwf. rewrite In_candidates. split.
  - intros [S [syms [sym [HS [Hsym Hc]]]]]. exists S, syms, sym.
    split; [exact HS|]. split; [exact Hsym|].
    apply In_symbol_candidates in Hc.
    destruct Hc as [Hc|[Hc|[w [Hw ->]]]]; [now left | right; now left|].
    right. right.
    apply In_parent_scope_wildcards in Hw; [|exact Hwf].
    destruct Hw as [A [imports [HA [Hw [Hwild Hpre]]]]].
    exists A, imports, w. tauto.
  - intros [S [syms [sym [HS [Hsym Hc]]]]]. exists S, syms, sym.
    split; [exact HS|]. split; [exact Hsym|].
    apply In_symbol_candidates.
    destruct Hc as [Hc|[Hc|[A [imports [w [HA [Hw [Hwild [Hpre ->]]]]]]]]];
      [now left | right; now left|].
    right. right. exists w. split; [|reflexivity].
    apply In_parent_scope_wildcards; [exact Hwf|].
    exists A, imports. tauto.
Qed.

Lemma candidates_characterised_witness :
  Py.dict_wf (imports_by_scope foobar_analysis) /\
  exists S syms sym,
    In (S, syms) (consumed_symbols_by_scope foobar_analysis) /\
    In sym syms /\
    ((exists T, In T (scopes foobar_analysis) /\
                "org.lib.Widget" = Py.dotted T sym) \/
     ((scopes foobar_analysis = [] \/ Py.str_in "." sym = true) /\
      "org.lib.Widget" = sym) \/
     (exists A imports w,
        In (A, imports) (imports_by_scope foobar_analysis) /\ In w imports /\
        is_wildcard w = true /\ Py.startswith S A = true /\
        "org.lib.Widget" = Py.dotted (name w) sym)).
Proof.
  assert (Hwf : Py.dict_wf (imports_by_scope foobar_analysis))
    by (unfold Py.dict_wf; simpl; nodup_by_computation).
  split; [exact Hwf|].
  apply (proj1 (@candidates_characterised nodup_iteration foobar_analysis
                  "org.lib.Widget" Hwf)).
  vm_compute. right. now left.
Defined.

(** X2.  No consumed symbol is lost: each one has a candidate, which is the
    symbol itself or the symbol behind a qualifier and a dot.  Hence the
    candidate sequence is empty exactly when no scope consumes a symbol. *)
Theorem every_consumed_symbol_has_a_candidate `{SetIteration}
    (a : ScalaSourceDependencyAnalysis) :
  (forall S syms sym,
     In (S, syms) (consumed_symbols_by_scope a) -> In sym syms ->
     exists c, In c (fully_qualified_consumed_symbols a) /\
               (c = sym \/ exists q, c = Py.dotted q sym)) /\
  (fully_qualified_consumed_symbols a = [] <->
   forall S syms, In (S, syms) (consumed_symbols_by_scope a) -> syms = []).
Proof.
  assert (Hsome : forall S syms sym,
            In (S, syms) (consumed_symbols_by_scope a) -> In sym syms ->
            exists c, In c (fully_qualified_consumed_symbols a) /\
                      (c = sym \/ exists q, c = Py.dotted q sym)).
  { intros S syms sym HS Hsym.
    destruct (scopes a) as [|T Ts] eqn:Es.
    - exists sym. split; [|now left].
      apply In_candidates. exists S, syms, sym. repeat split; try assumption.
      apply In_symbol_candidates. right. left. split; [now left | reflexivity].
    - exists (Py.dotted T sym). split; [|right; now exists T].
      apply In_candidates. exists S, syms, sym. repeat split; try assumption.
      apply In_symbol_candidates. left. exists T. rewrite Es. split;
        [now left | reflexivity]. }
  split; [exact Hsome|]. split.
  - intros Hnil S syms HS. destruct syms as [|sym syms]; [reflexivity|].
    destruct (Hsome S (sym :: syms) sym HS) as [c [Hc _]]; [now left|].
    rewrite Hnil in Hc. destruct Hc.
  - intros Hall.
    destruct (fully_qualified_consumed_symbols a) as [|c l] eqn:E;
      [reflexivity|].
    assert (Hc : In c (fully_qualified_consumed_symbols a))
      by (rewrite E; now left).
    apply In_candidates in Hc. destruct Hc as [S [syms [sym [HS [Hsym _]]]]].
    rewrite (Hall S syms HS) in Hsym. destruct Hsym.
Qed.

Lemma every_consumed_symbol_has_a_candidate_witness :
  exists c,
    In c (@fully_qualified_consumed_symbols nodup_iteration foobar_analysis) /\
    (c = "Widget" \/ exists q, c = Py.dotted q "Widget").
Proof.
  apply (proj1 (@every_consumed_symbol_has_a_candidate nodup_iteration
                  foobar_analysis) "com.foobar" ["Widget"] "Widget");
    simpl; now left.
Defined.

(** X3.  When [scopes] is not empty every candidate contains a dot: a
    consumed symbol without a dot is then never yielded unqualified. *)
Theorem candidates_are_dotted_when_scopes `{SetIteration}
    (a : ScalaSourceDependencyAnalysis) (c : string) :
  scopes a <> [] ->
  In c (fully_qualified_consumed_symbols a) ->
  Py.str_in "." c = true.
Proof.
  intros Hs Hc. apply In_candidates in Hc.
  destruct Hc as [S [syms [sym [_ [_ Hc]]]]].
  apply In_symbol_candidates in Hc.
  destruct Hc as [[T [_ ->]]|[[[Hnil|Hdot] ->]|[w [_ ->]]]].
  - apply str_in_dotted.
  - contradiction.
  - exact Hdot.
  - apply str_in_dotted.
Qed.

Lemma candidates_are_dotted_when_scopes_witness :
  Py.str_in "." "com.foobar.Widget" = true.
Proof.
  apply (@candidates_are_dotted_when_scopes nodup_iteration foobar_analysis).
  - simpl. discriminate.
  - vm_compute. now left.
Defined.

Lemma wildcard_fold_filtered (its : list (string * list ScalaImport))
    (acc : Py.dict (list ScalaImport)) :
  fold_left wildcard_step
    (map (fun kv => (fst kv, filter is_wildcard (snd kv))) its) acc
  = fold_left wildcard_step its acc.
Proof.
  revert acc. induction its as [|[k v] its IH]; intros acc; simpl;
    [reflexivity|].
  rewrite IH. f_equal. unfold wildcard_step. simpl.
  assert (E : filter is_wildcard (filter is_wildcard v) = filter is_wildcard v).
  { clear. induction v as [|w v IH]; simpl; [reflexivity|].
    destruct (is_wildcard w) eqn:Ew; simpl; rewrite ?Ew, IH; reflexivity. }
  now rewrite E.
Qed.

(** X4.  The resolver reads the scopes, the consumed symbols and the wildcard
    imports, and nothing else: with other provided symbols and with every
    import that is not a wildcard removed, the candidate sequence is the
    same, element for element. *)
Theorem resolver_reads_only_wildcard_imports `{SetIteration}
    (a : ScalaSourceDependencyAnalysis)
    (provided provided_encoded : list string) :
  fully_qualified_consumed_symbols (wildcards_only provided provided_encoded a)
  = fully_qualified_consumed_symbols a.
Proof.
  unfold fully_qualified_consumed_symbols, wildcard_imports_by_scope, Py.items.
  simpl. rewrite wildcard_fold_filtered. reflexivity.
Qed.

Lemma gen_advance_pending `{SetIteration} (a : ScalaSourceDependencyAnalysis)
    (n : nat) (g : Gen) :
  pending a g
  = snd (gen_advance n a g) ++ pending a (fst (gen_advance n a g)) /\
  moves_left a (fst (gen_advance n a g)) = moves_left a g - n.
Proof.
  revert g. induction n as [|n IH]; intros g; simpl.
  - split; [reflexivity | lia].
  - destruct (gen_step a g) as [g' o] eqn:E.
    destruct (IH g') as [Hp Hm].
    destruct (gen_advance n a g') as [g'' os]. simpl in *.
    destruct (gen_eq_Finished g) as [->|Hg].
    + injection E as <- <-. simpl in *. split; [exact Hp | exact Hm].
    + apply gen_step_pending in E; [|exact Hg]. destruct E as [Ep Em].
      rewrite Ep, Hp, Hm, Em, <- app_assoc. split; [reflexivity | lia].
Qed.

(** X6.  The iteration is lazy and can be abandoned: after any number of
    moves a generator has yielded a prefix of the candidate sequence, and
    after [gen_moves a] moves or more it is finished and has yielded all of
    it. *)
Theorem partial_iteration_yields_a_prefix `{SetIteration}
    (a : ScalaSourceDependencyAnalysis) (n : nat) :
  (exists rest,
     fully_qualified_consumed_symbols a
     = snd (gen_advance n a Created) ++ rest) /\
  (gen_moves a <= n ->
   gen_advance n a Created = (Finished, fully_qualified_consumed_symbols a)).
Proof.
  destruct (gen_advance_pending a n Created) as [Hp Hm]. split.
  - eexists. exact Hp.
  - intros Hle.
    assert (Hf : fst (gen_advance n a Created) = Finished).
    { apply (moves_left_zero a). rewrite Hm.
      change (moves_left a Created) with (gen_moves a). lia. }
    destruct (gen_advance n a Created) as [g os]. simpl in *. subst g.
    simpl in Hp. rewrite app_nil_r in Hp.
    change (pending a Created) with (fully_qualified_consumed_symbols a) in Hp.
    now rewrite Hp.
Qed.

Lemma partial_iteration_yields_a_prefix_witness :
  gen_moves (H := nodup_iteration) example_analysis <= 10 /\
  gen_advance (H := nodup_iteration) 10 example_analysis Created
  = (Finished, ["com.foo.Bar.Qux"; "com.baz._.Qux"]).
Proof.
  assert (Hle : gen_moves (H := nodup_iteration) example_analysis <= 10)
    by (vm_compute; lia).
  split; [exact Hle|].
  exact (proj2 (@partial_iteration_yields_a_prefix nodup_iteration
                  example_analysis 10) Hle).
Defined.

(** X7.  [all_imports] yields the name of every import of every scope,
    wildcard or not, once per occurrence; every name with which the resolver
    qualifies a symbol through a wildcard import is among them. *)
Theorem all_imports_lists_every_import `{SetIteration}
    (a : ScalaSourceDependencyAnalysis) :
  (forall n,
     In n (all_imports a) <->
     exists scope imports i,
       In (scope, imports) (imports_by_scope a) /\ In i imports /\
       name i = n) /\
  List.length (all_imports a)
  = list_sum (map (fun kv => List.length (snd kv)) (imports_by_scope a)) /\
  (forall S w,
     In w (parent_scope_wildcards (wildcard_imports_by_scope a) S) ->
     In (name w) (all_imports a)).
Proof.
  assert (Hin : forall n,
            In n (all_imports a) <->
            exists scope imports i,
              In (scope, imports) (imports_by_scope a) /\ In i imports /\
              name i = n).
  { intros n. unfold all_imports, Py.values. rewrite in_flat_map. split.
    - intros [imports [Hi Hn]]. apply in_map_iff in Hi.
      destruct Hi as [[scope imports'] [E Hi]]. simpl in E. subst imports'.
      apply in_map_iff in Hn. destruct Hn as [i [E Hn]].
      exists scope, imports, i. tauto.
    - intros [scope [imports [i [Hi [Hn E]]]]]. exists imports. split.
      + change imports with (snd (scope, imports)). now apply in_map.
      + apply in_map_iff. exists i. tauto. }
  split; [exact Hin|]. split.
  - unfold all_imports, Py.values. clear Hin.
    induction (imports_by_scope a) as [|[k v] l IH]; simpl; [reflexivity|].
    rewrite length_app, length_map, IH. reflexivity.
  - intros S w Hw. unfold parent_scope_wildcards in Hw.
    apply set_iter_In, In_added in Hw.
    destruct Hw as [s [wis [Hs [Hw _]]]].
    destruct (proj2 (wildcard_index_invariant_aux a) s wis Hs)
      as [imports [Hi ->]].
    apply filter_In in Hw. apply Hin. exists s, imports, w. tauto.
Qed.

(* ================================================================== *)
(** * Further properties of the serialisation *)
(* ================================================================== *)

Lemma result_bind_Ok {A B} (m : result A) (k : A -> result B) (b : B) :
  result_bind m k = Ok b -> exists x, m = Ok x /\ k x = Ok b.
Proof. destruct m as [x|e]; simpl; [eauto | discriminate]. Qed.

Lemma subscript_Ok {V} (d : Py.dict V) (key : string) (v : V) :
  subscript d key = Ok v -> Py.getitem d key = Some v.
Proof.
  unfold subscript. destruct (Py.getitem d key); [|discriminate].
  now intros [= ->].
Qed.

Lemma subscript_missing {V} (d : Py.dict V) (key : string) :
  Py.getitem d key = None -> subscript d key = Err (KeyError key).
Proof. unfold subscript. now intros ->. Qed.

Lemma subscript_present {V} (d : Py.dict V) (key : string) (v : V) :
  Py.getitem d key = Some v -> subscript d key = Ok v.
Proof. unfold subscript. now intros ->. Qed.

(** A comprehension that succeeds returns a dict with distinct keys whose
    values are results of its body, if it started from such a dict. *)
Lemma dict_compM_inv {V W} (f : V -> result W) (P : W -> Prop)
    (its : list (string * V)) (acc r : Py.dict W) :
  dict_compM f its acc = Ok r ->
  Py.dict_wf acc ->
  (forall kv, In kv acc -> P (snd kv)) ->
  (forall v w, f v = Ok w -> P w) ->
  Py.dict_wf r /\ forall kv, In kv r -> P (snd kv).
Proof.
  intros Hrun Hwf Hacc Hf. revert acc Hrun Hwf Hacc.
  induction its as [|[k v] its IH]; simpl; intros acc Hrun Hwf Hacc.
  - injection Hrun as <-. now split.
  - apply result_bind_Ok in Hrun. destruct Hrun as [w [Hw Hrun]].
    apply (IH _ Hrun).
    + now apply setitem_wf.
    + intros kv Hin. apply In_setitem in Hin.
      destruct Hin as [->|Hin]; [simpl; eauto | auto].
Qed.

(** X8.  Whenever [from_json_dict] returns an analysis, the analysis is well
    formed: the keys of both mappings are distinct and no set repeats a
    member, whatever the lists of the transport record repeat. *)
Theorem from_json_dict_returns_well_formed
    (d : Py.dict json) (a : ScalaSourceDependencyAnalysis) :
  from_json_dict d = Ok a -> wf_analysis a.
Proof.
  unfold from_json_dict. intros H.
  repeat (apply result_bind_Ok in H;
          let x := fresh "x" in let E := fresh "E" in
          destruct H as [x [E H]]).
  injection H as <-.
  match goal with
  | Hi : dict_compM _ _ [] = Ok ?ibs, Hc : dict_compM _ _ [] = Ok ?csbs |- _ =>
      destruct (@dict_compM_inv _ _ _ (fun _ => True) _ _ _ Hi
                  (NoDup_nil _)) as [Hiwf _]; [intros _ [] | auto |];
      destruct (@dict_compM_inv _ _ _ (@NoDup string) _ _ _ Hc
                  (NoDup_nil _)) as [Hcwf Hsets]; [intros _ [] | |]
  end.
  - intros v w Hv. apply result_bind_Ok in Hv. destruct Hv as [vs [_ [= <-]]].
    apply NoDup_FrozenOrderedSet.
  - constructor; simpl; try apply NoDup_FrozenOrderedSet; try assumption.
    intros s syms Hin. exact (Hsets _ Hin).
Qed.

Lemma from_json_dict_returns_well_formed_witness :
  exists a, from_json_dict example_transport = Ok a /\ wf_analysis a.
Proof.
  eexists. split; [reflexivity|].
  apply (@from_json_dict_returns_well_formed example_transport).
  reflexivity.
Defined.

(** X10.  [from_json_dict] returns an analysis only for a record that holds
    all five keys. *)
Theorem from_json_dict_needs_every_key
    (d : Py.dict json) (a : ScalaSourceDependencyAnalysis) :
  from_json_dict d = Ok a ->
  forall key,
    In key ["providedSymbols"; "providedSymbolsEncoded"; "importsByScope";
            "consumedSymbolsByScope"; "scopes"] ->
    Py.getitem d key <> None.
Proof.
  unfold from_json_dict. intros H.
  repeat (apply result_bind_Ok in H;
          let x := fresh "x" in let E := fresh "E" in
          destruct H as [x [E H]]).
  repeat match goal with
         | E : subscript _ _ = Ok _ |- _ => apply subscript_Ok in E
         end.
  intros key Hkey. simpl in Hkey.
  repeat (destruct Hkey as [<-|Hkey]; [congruence|]). destruct Hkey.
Qed.

Lemma from_json_dict_needs_every_key_witness :
  Py.getitem example_transport "scopes" <> None.
Proof.
  apply (@from_json_dict_needs_every_key example_transport _ eq_refl).
  simpl. tauto.
Defined.

(** X9.  A missing key is reported by [KeyError] with the name of the key;
    when several are missing, it is the first of [providedSymbols],
    [providedSymbolsEncoded], [importsByScope], [consumedSymbolsByScope],
    [scopes], the keys before it holding what [t] says. *)
Theorem first_missing_key_is_reported (d : Py.dict json) (t : Transport) :
  (Py.getitem d "providedSymbols" = None ->
   from_json_dict d = Err (KeyError "providedSymbols")) /\
  (Py.getitem d "providedSymbols"
   = Some (symbols_json (t_providedSymbols t)) ->
   (Py.getitem d "providedSymbolsEncoded" = None ->
    from_json_dict d = Err (KeyError "providedSymbolsEncoded")) /\
   (Py.getitem d "providedSymbolsEncoded"
    = Some (symbols_json (t_providedSymbolsEncoded t)) ->
    (Py.getitem d "importsByScope" = None ->
     from_json_dict d = Err (KeyError "importsByScope")) /\
    ((exists jd,
        Py.getitem d "importsByScope" = Some (JObj jd) /\
        Forall2 imports_repr jd (t_importsByScope t)) ->
     Py.dict_wf (t_importsByScope t) ->
     (Py.getitem d "consumedSymbolsByScope" = None ->
      from_json_dict d = Err (KeyError "consumedSymbolsByScope")) /\
     (Py.getitem d "consumedSymbolsByScope"
      = Some (JObj (map (fun kv => (fst kv, symbols_json (snd kv)))
                        (t_consumedSymbolsByScope t))) ->
      Py.dict_wf (t_consumedSymbolsByScope t) ->
      Py.getitem d "scopes" = None ->
      from_json_dict d = Err (KeyError "scopes"))))).
Proof.
  unfold from_json_dict. split.
  { intros E. now rewrite (subscript_missing _ _ E). }
  intros Hp. rewrite (subscript_present _ _ Hp). simpl result_bind.
  rewrite as_str_list_symbols. simpl result_bind. split.
  { intros E. now rewrite (subscript_missing _ _ E). }
  intros Hpe. rewrite (subscript_present _ _ Hpe). simpl result_bind.
  rewrite as_str_list_symbols. simpl result_bind. split.
  { intros E. now rewrite (subscript_missing _ _ E). }
  intros [jd [Hi Hjd]] Hiwf. rewrite (subscript_present _ _ Hi).
  simpl result_bind. unfold Py.items.
  rewrite (@dict_compM_ok _ _ _ jd (t_importsByScope t) []);
    [| eapply Forall2_impl; [|exact Hjd];
       intros [k j] [k' imports] [Hk [js [Hj Hjs]]]; simpl in *; subst;
       split; [reflexivity|]; simpl; now apply mapM_imports
     | simpl; exact Hiwf ].
  simpl result_bind. split.
  { intros E. now rewrite (subscript_missing _ _ E). }
  intros Hc Hcwf Hs. rewrite (subscript_present _ _ Hc). simpl result_bind.
  rewrite (@dict_compM_ok _ _ _ _
             (map (fun kv => (fst kv, FrozenOrderedSet (snd kv)))
                  (t_consumedSymbolsByScope t)) []).
  - simpl result_bind. now rewrite (subscript_missing _ _ Hs).
  - clear. induction (t_consumedSymbolsByScope t) as [|[k v] l IH]; simpl;
      constructor; [|exact IH].
    simpl. split; [reflexivity|]. now rewrite as_str_list_symbols.
  - simpl. unfold Py.keys. rewrite map_map. simpl. exact Hcwf.
Qed.

Lemma first_missing_key_is_reported_witness :
  from_json_dict [] = Err (KeyError "providedSymbols") /\
  from_json_dict
    [ ("scopes", JArr []);
      ("providedSymbols", JArr [JStr "com.foo.Bar"; JStr "com.foo.Bar"]) ]
  = Err (KeyError "providedSymbolsEncoded").
Proof.
  split.
  - apply (proj1 (first_missing_key_is_reported [] example_transport_content)).
    reflexivity.
  - apply (proj1 (proj2 (first_missing_key_is_reported
                           [ ("scopes", JArr []);
                             ("providedSymbols",
                               JArr [JStr "com.foo.Bar"; JStr "com.foo.Bar"]) ]
                           example_transport_content) eq_refl)).
    reflexivity.
Defined.

(** X12.  An import object without ["name"] raises [KeyError("name")], also
    when ["isWildcard"] is missing too; one with a string under ["name"] and
    without ["isWildcard"] raises [KeyError("isWildcard")]. *)
Theorem import_missing_key (m : Py.dict json) :
  (Py.getitem m "name" = None ->
   ScalaImport_from_json_dict (JObj m) = Err (KeyError "name")) /\
  (forall n,
     Py.getitem m "name" = Some (JStr n) ->
     Py.getitem m "isWildcard" = None ->
     ScalaImport_from_json_dict (JObj m) = Err (KeyError "isWildcard")).
Proof.
  unfold ScalaImport_from_json_dict. simpl. split.
  - intros E. now rewrite (subscript_missing _ _ E).
  - intros n En Ew. rewrite (subscript_present _ _ En). simpl.
    now rewrite (subscript_missing _ _ Ew).
Qed.

Lemma import_missing_key_witness :
  ScalaImport_from_json_dict (JObj [("isWildcard", JBool true)])
  = Err (KeyError "name") /\
  ScalaImport_from_json_dict (JObj [("name", JStr "com.baz._")])
  = Err (KeyError "isWildcard").
Proof.
  split.
  - apply (proj1 (import_missing_key [("isWildcard", JBool true)])).
    reflexivity.
  - apply (proj2 (import_missing_key [("name", JStr "com.baz._")])
             "com.baz._"); reflexivity.
Defined.

(** X13.  The debug form is not a transport record: decoding the debug form
    of an import raises [KeyError("isWildcard")], and decoding the debug form
    of an analysis raises [KeyError("providedSymbols")], whatever the import
    or the analysis. *)
Theorem debug_form_is_not_decodable :
  (forall i : ScalaImport,
     ScalaImport_from_json_dict (ScalaImport_to_debug_json_dict i)
     = Err (KeyError "isWildcard")) /\
  (forall a : ScalaSourceDependencyAnalysis,
     (d <- as_dict (to_debug_json_dict a) ;; from_json_dict d)
     = Err (KeyError "providedSymbols")).
Proof. split; intros; reflexivity. Qed.

Lemma dict_comp_Forall2 {V V' W} (f : V -> W) (g : V' -> W)
    (its : list (string * V)) (its' : list (string * V')) :
  Forall2 (fun kv kv' => fst kv = fst kv' /\ f (snd kv) = g (snd kv'))
          its its' ->
  Py.dict_comp f its = Py.dict_comp g its'.
Proof.
  unfold Py.dict_comp. generalize (@nil (string * W)) as acc.
  intros acc Hall. revert acc.
  induction Hall as [|[k v] [k' v'] its its' [Hk Hv] _ IH]; intros acc; simpl;
    [reflexivity|].
  simpl in Hk, Hv. subst k'. rewrite Hv. apply IH.
Qed.

Lemma sorted_Permutation_eq (l l' : list string) :
  Permutation l l' -> Py.sorted l = Py.sorted l'.
Proof.
  intros Hp. apply sorted_unique; [apply sorted_Sorted|].
  now rewrite sorted_Permutation.
Qed.

(** X14.  The debug form does not depend on the order in which a scope's
    consumed symbols are held: two analyses that differ only by a
    rearrangement of the consumed symbols of each scope have the same debug
    form. *)
Theorem debug_form_ignores_consumed_order
    (a : ScalaSourceDependencyAnalysis) (consumed : Py.dict (list string)) :
  Forall2 (fun kv kv' => fst kv = fst kv' /\ Permutation (snd kv) (snd kv'))
          (consumed_symbols_by_scope a) consumed ->
  to_debug_json_dict (with_consumed consumed a) = to_debug_json_dict a.
Proof.
  intros Hall.
  assert (E : Py.dict_comp (fun v => JArr (map JStr (Py.sorted v)))
                (consumed_symbols_by_scope a)
              = Py.dict_comp (fun v => JArr (map JStr (Py.sorted v)))
                  consumed).
  { apply dict_comp_Forall2. eapply Forall2_impl; [|exact Hall].
    intros [k v] [k' v'] [Hk Hp]. simpl in *. split; [exact Hk|].
    now rewrite (sorted_Permutation_eq Hp). }
  unfold to_debug_json_dict, with_consumed, Py.items. simpl.
  now rewrite E.
Qed.

Lemma debug_form_ignores_consumed_order_witness :
  to_debug_json_dict
    {| provided_symbols := [];
       provided_symbols_encoded := [];
       imports_by_scope := [];
       consumed_symbols_by_scope := [("com.foo", ["Baz"; "Qux"; "Bar"])];
       scopes := ["com.foo"] |}
  = to_debug_json_dict
      {| provided_symbols := [];
         provided_symbols_encoded := [];
         imports_by_scope := [];
         consumed_symbols_by_scope := [("com.foo", ["Qux"; "Bar"; "Baz"])];
         scopes := ["com.foo"] |}.
Proof.
  apply (@debug_form_ignores_consumed_order
           {| provided_symbols := [];
              provided_symbols_encoded := [];
              imports_by_scope := [];
              consumed_symbols_by_scope := [("com.foo", ["Qux"; "Bar"; "Baz"])];
              scopes := ["com.foo"] |}
           [("com.foo", ["Baz"; "Qux"; "Bar"])]).
  constructor; [|constructor]. simpl. split; [reflexivity|].
  apply Permutation_sym.
  apply (@Permutation_cons_app _ ["Qux"; "Bar"] ["Qux"; "Bar"] [] "Baz").
  rewrite app_nil_r. apply Permutation_refl.
Defined.

(** X15.  Decoding reads the five keys and nothing else: two transport
    records with the same content, whatever other keys they hold and in
    whatever order, are decoded to the same analysis. *)
Theorem decoding_reads_only_the_content
    (d1 d2 : Py.dict json) (t : Transport) :
  represents d1 t -> represents d2 t ->
  from_json_dict d1 = from_json_dict d2 /\
  exists a, from_json_dict d1 = Ok a.
Proof.
  intros H1 H2.
  rewrite (from_json_dict_represents H1), (from_json_dict_represents H2).
  split; [reflexivity | eexists; reflexivity].
Qed.

Lemma decoding_reads_only_the_content_witness :
  from_json_dict example_transport
  = from_json_dict (("comment", JStr "generated") :: rev example_transport).
Proof.
  refine (proj1 (@decoding_reads_only_the_content example_transport
                   (("comment", JStr "generated") :: rev example_transport)
                   example_transport_content
                   example_transport_represents _)).
  constructor; try reflexivity.
  - eexists. split; [reflexivity|].
    repeat constructor. simpl. eexists. split; [reflexivity|].
    repeat constructor. eexists. repeat split.
  - unfold Py.dict_wf. simpl. nodup_by_computation.
  - unfold Py.dict_wf. simpl. nodup_by_computation.
Defined.

(* ================================================================== *)
(** * Further properties of the rules *)
(* ================================================================== *)

Section MoreRuleFacts.
Variables Digest Env Caches Coordinate : Type.
Variable from_coord_str : string -> Coordinate.
Variable json_loads : string -> option json.

Local Abbreviation Rule := (Rule Digest Env Caches Coordinate).
Local Abbreviation Engine := (Engine Digest Env Caches Coordinate).
Local Abbreviation Request := (Request Digest Env Caches Coordinate).

(** X16.  Given exactly one file and an engine that answers, the first rule
    does not raise, whatever the exit code of the parser process: it returns
    the engine's answer to the process request, untouched, after five other
    requests.  The process is asked for the one output file
    [__source_analysis.json], its last three arguments are the parser's main
    class, that output file and the path of the source, and the path of the
    source is the file under [__source_to_analyze/] unless the file starts
    with a slash, in which case it is the file itself. *)
Theorem analyze_returns_any_process_result
    (answers : forall r : Request, Response r) bash jdk_setup
    processor_classfiles (source_files : SourceFiles Digest) (file : string) :
  files source_files = [file] ->
  exists p before,
    run (answering answers)
      (analyze_scala_source_dependencies from_coord_str bash jdk_setup
         processor_classfiles source_files)
    = (Ok {| process_result := answers (GetFallibleProcessResult p) |},
       before ++ [GetFallibleProcessResult p]) /\
    List.length before = 5 /\
    output_files p = ["__source_analysis.json"] /\
    description p = ("Analyzing " ++ file)%string /\
    (exists args,
       argv p
       = args
         ++ [ "org.pantsbuild.backend.scala.dependency_inference.ScalaParser";
              "__source_analysis.json";
              Py.os_path_join "__source_to_analyze" file ]) /\
    (Py.startswith file "/" = false ->
     Py.os_path_join "__source_to_analyze" file
     = ("__source_to_analyze/" ++ file)%string) /\
    (Py.startswith file "/" = true ->
     Py.os_path_join "__source_to_analyze" file = file).
Proof.
  intros Hfiles. unfold analyze_scala_source_dependencies, answering.
  rewrite Hfiles. simpl.
  eexists _, [_; _; _; _; _]. simpl.
  split; [reflexivity|]. split; [reflexivity|]. split; [reflexivity|].
  split; [reflexivity|]. split; [eexists; reflexivity|].
  unfold Py.os_path_join. split; intros ->; reflexivity.
Qed.


(** X18.  The pipeline end to end: when the first rule has returned a result
    with exit code 0 and the first file of its output digest parses to a
    transport record of content [t], the pipeline returns the analysis of
    [t], having made one request more than the first rule. *)
Theorem pipeline_returns_the_analysis (engine : Engine) bash jdk_setup
    processor_classfiles (source_files : SourceFiles Digest) global_options
    fallible_result trace c others d (t : Transport) :
  run engine
    (analyze_scala_source_dependencies from_coord_str bash jdk_setup
       processor_classfiles source_files)
  = (Ok fallible_result, trace) ->
  exit_code (process_result fallible_result) = 0%Z ->
  engine (GetDigestContents (output_digest (process_result fallible_result)))
  = inr (c :: others) ->
  json_loads (content c) = Some (JObj d) ->
  represents d t ->
  run engine
    (analysis_pipeline from_coord_str json_loads bash jdk_setup
       processor_classfiles source_files global_options)
  = (Ok {| provided_symbols := FrozenOrderedSet (t_providedSymbols t);
           provided_symbols_encoded :=
             FrozenOrderedSet (t_providedSymbolsEncoded t);
           imports_by_scope := t_importsByScope t;
           consumed_symbols_by_scope :=
             map (fun kv => (fst kv, FrozenOrderedSet (snd kv)))
                 (t_consumedSymbolsByScope t);
           scopes := FrozenOrderedSet (t_scopes t) |},
     trace
     ++ [GetDigestContents (output_digest (process_result fallible_result))]).
Proof.
  intros Hrun Hexit Hcontents Hjson Hrep.
  unfold analysis_pipeline. rewrite run_bind, Hrun.
  unfold resolve_fallible_result_to_analysis. rewrite Hexit. simpl.
  rewrite Hcontents, Hjson. simpl.
  now rewrite (from_json_dict_represents Hrep).
Qed.

End MoreRuleFacts.

Lemma analyze_returns_any_process_result_witness :
  exists trace,
    run (answering succeeding_answers)
      (analyze_scala_source_dependencies (fun _ => tt)
         {| bash_path := "/bin/bash" |} trivial_jdk
         {| classfiles_digest := tt |} (sources_of ["src/jvm/Foo.scala"]))
    = (Ok {| process_result :=
               {| stdout := "parsed";
                  stderr := EmptyString;
                  exit_code := 0%Z;
                  output_digest := tt |} |},
       trace).
Proof.
  destruct (@analyze_returns_any_process_result unit unit unit unit
              (fun _ => tt) succeeding_answers {| bash_path := "/bin/bash" |}
              trivial_jdk {| classfiles_digest := tt |}
              (sources_of ["src/jvm/Foo.scala"]) "src/jvm/Foo.scala" eq_refl)
    as [p [before [Hrun _]]].
  eexists. exact Hrun.
Defined.


Lemma pipeline_returns_the_analysis_witness :
  exists trace,
    run (answering succeeding_answers)
      (analysis_pipeline (fun _ => tt) (fun _ => Some (JObj example_transport))
         {| bash_path := "/bin/bash" |} trivial_jdk
         {| classfiles_digest := tt |} (sources_of ["src/jvm/Foo.scala"])
         {| process_execution_local_cleanup := true |})
    = (Ok {| provided_symbols := ["com.foo.Bar"];
             provided_symbols_encoded := ["com.foo.Bar"];
             imports_by_scope :=
               [("com.foo.Bar", [mkScalaImport "com.baz._" true])];
             consumed_symbols_by_scope := [("com.foo.Bar", ["Qux"; "Baz"])];
             scopes := ["com.foo.Bar"; "com"] |},
       trace).
Proof.
  eexists.
  refine (@pipeline_returns_the_analysis unit unit unit unit (fun _ => tt)
            (fun _ => Some (JObj example_transport))
            (answering succeeding_answers) {| bash_path := "/bin/bash" |}
            trivial_jdk {| classfiles_digest := tt |}
            (sources_of ["src/jvm/Foo.scala"])
            {| process_execution_local_cleanup := true |}
            _ _ _ _ example_transport example_transport_content
            _ _ _ _ example_transport_represents);
    reflexivity.
Defined.

Section SetupFacts.
Variables Digest Env Caches Coordinate : Type.
Variable from_coord_str : string -> Coordinate.
Variable mk_coordinate : string -> string -> string -> Coordinate.

Local Abbreviation SetupRequest := (SetupRequest Digest Env Caches Coordinate).


End SetupFacts.

